(** * The search-orchestration pipeline of azure_search_mcp

    A shallow embedding of [src/azure_search_mcp/azure_search.py] (the
    retrieval client) and [src/azure_search_mcp/chain.py] (the LangGraph
    stage graph, [run] and [get_document_context_tool]), followed by the
    properties of the pipeline stated in the specification.

    Conventions of the embedding.
    - A Python [str] is a [string]; a character stands for the code point
      below 256 with the same number.
    - A Python [dict] with string keys is a [gmap string pyval].
    - An [async def] is a function of the world (the shared retrieval
      client, a log of the retriever invocations and the wall clock)
      returning the new world and either a value or the exception raised.
    - Time is a rational number of seconds; only [retriever.invoke] and the
      language-model chains let the clock advance.
    - chain.py writes to [sys.stderr] in several exception handlers and
      does not import [sys]: reaching one of them raises [NameError]. *)

From Stdlib Require Import String Ascii List ZArith QArith Lia.
From stdpp Require Import base option gmap strings list pretty.

Local Open Scope Z_scope.
Local Open Scope stdpp_scope.

(** ** Python strings *)

Module Py.

Definition nl : string := String "010"%char EmptyString.

(** [str.isspace] on the code points below 256. *)
Definition isspace (c : ascii) : bool :=
  let n := nat_of_ascii c in
  ((9 <=? n)%nat && (n <=? 13)%nat)
  || ((28 <=? n)%nat && (n <=? 32)%nat)
  || (n =? 133)%nat
  || (n =? 160)%nat.

Fixpoint lstrip (s : string) : string :=
  match s with
  | EmptyString => EmptyString
  | String c s' => if isspace c then lstrip s' else s
  end.

Fixpoint rstrip (s : string) : string :=
  match s with
  | EmptyString => EmptyString
  | String c s' =>
      match rstrip s' with
      | EmptyString => if isspace c then EmptyString else String c EmptyString
      | r => String c r
      end
  end.

(** [s.strip()] *)
Definition strip (s : string) : string := rstrip (lstrip s).

(** [s.split(sep)] for a one-character separator: never the empty list. *)
Fixpoint split (sep : ascii) (s : string) : list string :=
  match s with
  | EmptyString => [EmptyString]
  | String c s' =>
      if Ascii.eqb c sep then EmptyString :: split sep s'
      else match split sep s' with
           | p :: ps => String c p :: ps
           | [] => [String c EmptyString]
           end
  end.

(** [sep.join(parts)] *)
Definition join (sep : string) (parts : list string) : string :=
  String.concat sep parts.

(** [bool(s)] for a string. *)
Definition truthy (s : string) : bool :=
  match s with EmptyString => false | String _ _ => true end.

(** [s.startswith(p)] *)
Definition startswith (p s : string) : bool := String.prefix p s.

(** The values stored in the dictionaries of the program.  Floats and
    nested containers do not occur in the stages modelled here. *)
Inductive pyval : Type :=
| VNone
| VBool (b : bool)
| VInt (z : Z)
| VStr (s : string).

(** [str(v)], as an f-string renders a value. *)
Definition str (v : pyval) : string :=
  match v with
  | VNone => "None"
  | VBool true => "True"
  | VBool false => "False"
  | VInt z => pretty z
  | VStr s => s
  end.

(** [d.get(k, default)] *)
Definition get (d : gmap string pyval) (k : string) (dflt : pyval) : pyval :=
  default dflt (d !! k).

(** [enumerate(l, start)] *)
Fixpoint enumerate {A} (l : list A) (start : nat) : list (nat * A) :=
  match l with
  | [] => []
  | x :: l' => (start, x) :: enumerate l' (S start)
  end.

(** The exceptions the modelled code raises or catches. *)
Inductive exn : Type :=
| TimeoutError
| NameError (name : string)
| KeyError (key : string)
| GraphRecursionError
| Exception (msg : string).

(** [str(e)] *)
Definition exn_str (e : exn) : string :=
  match e with
  | TimeoutError => ""
  | NameError n => "name '" +:+ n +:+ "' is not defined"
  | KeyError k => "'" +:+ k +:+ "'"
  | GraphRecursionError => "Recursion limit reached"
  | Exception m => m
  end.

End Py.

Import Py.

(** ** The world of an asynchronous call *)

Module Client.

(** LangChain's [Document]. *)
Record Document : Type := mkDocument {
  page_content : string;
  metadata : gmap string pyval
}.

(** The fields of [AzureAISearchRetriever] that the client sets. *)
Record AzureAISearchRetriever : Type := mkRetriever {
  service_name : string;
  retriever_index_name : string;
  retriever_api_key : string;
  content_key : string;
  top_k : Z
}.

(** The attributes of an [AzureSearchClient] instance. *)
Record AzureSearchClient : Type := mkClient {
  endpoint : string;
  api_key : string;
  index_name : string;
  retriever : option AzureAISearchRetriever;
  _init_error : option string
}.

End Client.

Abbreviation Document := Client.Document.
Abbreviation AzureSearchClient := Client.AzureSearchClient.

(** The one client instance shared by every run of the process, the log of
    the calls of [retriever.invoke] (the [top_k] the retriever held and the
    query), and the wall clock. *)
Record World : Type := mkWorld {
  client : AzureSearchClient;
  invocations : list (Z * string);
  now : Q
}.

(** What an external service answers, and after how long. *)
Record Timed (A : Type) : Type := mkTimed {
  duration : Q;
  answer : A + exn
}.
Arguments mkTimed {A} _ _.
Arguments duration {A} _.
Arguments answer {A} _.

(** The services outside the program: the search index behind
    [retriever.invoke], and the rendering of a float by [{elapsed:.2f}]. *)
Class Env : Type := mkEnv {
  invoke : Z -> string -> Timed (list Document);
  format_2f : Q -> string
}.

Record Outcome (A : Type) : Type := mkOutcome {
  after : World;
  value : A + exn
}.
Arguments mkOutcome {A} _ _.
Arguments after {A} _.
Arguments value {A} _.

Definition Aio (A : Type) : Type := World -> Outcome A.

Definition ret {A} (a : A) : Aio A := fun w => mkOutcome w (inl a).

Definition raise {A} (e : exn) : Aio A := fun w => mkOutcome w (inr e).

Definition bind {A B} (m : Aio A) (k : A -> Aio B) : Aio B :=
  fun w =>
    match value (m w) with
    | inl a => k a (after (m w))
    | inr e => mkOutcome (after (m w)) (inr e)
    end.

Notation "'let!' x ':=' m 'in' k" := (bind m (fun x => k))
  (at level 10, x name, m at level 100, k at level 200).

(** [try: m  except Exception as e: h e] *)
Definition try_except {A} (m : Aio A) (h : exn -> Aio A) : Aio A :=
  fun w =>
    match value (m w) with
    | inl a => m w
    | inr e => h e (after (m w))
    end.

(** [time.time()] *)
Definition time_time : Aio Q := fun w => mkOutcome w (inl (now w)).

Definition set_now (w : World) (t : Q) : World :=
  mkWorld (client w) (invocations w) t.

(** Awaiting an external service: the clock advances by its duration. *)
Definition await {A} (t : Timed A) : Aio A :=
  fun w => mkOutcome (set_now w (now w + duration t)) (answer t).

(** [asyncio.wait_for(m, timeout)]: the awaited call is cut off, and
    [TimeoutError] raised, once it has taken longer than [timeout]; a call
    that takes exactly [timeout] is let through.  Every
    call wrapped in this program touches the client and the log before its
    first await, so the cut-off call leaves them as the whole call does. *)
Definition wait_for {A} (m : Aio A) (timeout : Q) : Aio A :=
  fun w =>
    if Qle_bool (now (after (m w)) - now w) timeout then m w
    else mkOutcome (set_now (after (m w)) (now w + timeout)) (inr TimeoutError).

(** The budgets handed to [asyncio.wait_for], innermost first: around
    [retriever.invoke] and around [_execute_search] (azure_search.py),
    around the search call of the [search_documents] node and around
    [graph.ainvoke] (chain.py). *)
Definition invoke_timeout : Q := 25.
Definition execute_search_timeout : Q := 30.
Definition node_search_timeout : Q := 45.
Definition graph_execution_timeout : Q := 25.

(** [for x in l: acc = body acc x] *)
Fixpoint for_each {A B} (l : list A) (body : B -> A -> Aio B) (acc : B) : Aio B :=
  match l with
  | [] => ret acc
  | x :: l' => let! acc' := body acc x in for_each l' body acc'
  end.

(** [bool(x)] for an [Optional[str]]. *)
Definition truthy_opt (o : option string) : bool :=
  match o with
  | Some s => truthy s
  | None => false
  end.

(** ** azure_search.py *)

Module AzureSearch.
Import Client.
Section Methods.

Context {env : Env}.

Definition get_self : Aio AzureSearchClient :=
  fun w => mkOutcome w (inl (client w)).

(** [self.retriever.top_k = k] *)
Definition set_retriever_top_k (k : Z) : Aio unit :=
  fun w =>
    let c := client w in
    match retriever c with
    | Some r =>
        mkOutcome
          (mkWorld
             (mkClient (endpoint c) (api_key c) (index_name c)
                (Some (mkRetriever (service_name r) (retriever_index_name r)
                         (retriever_api_key r) (content_key r) k))
                (_init_error c))
             (invocations w) (now w))
          (inl tt)
    | None => mkOutcome w (inl tt)
    end.

(** [loop.run_in_executor(None, self.retriever.invoke, query)]: the
    retriever answers with the [top_k] it holds when it is invoked. *)
Definition run_in_executor_invoke (r : AzureAISearchRetriever) (query : string)
  : Aio (list Document) :=
  fun w =>
    await (invoke (top_k r) query)
      (mkWorld (client w) (invocations w ++ [(top_k r, query)]) (now w)).

(** The nested coroutine [_execute_search] of [search_documents]. *)
Definition _execute_search (query : string) : Aio (list Document) :=
  try_except
    (let! self := get_self in
     match retriever self with
     | None => raise (Exception "Retriever not available")
     | Some r => wait_for (run_in_executor_invoke r query) invoke_timeout
     end)
    (fun e =>
       match e with
       | TimeoutError => raise TimeoutError
       | sync_error => raise sync_error
       end).

Definition search_documents (query : string) (k : Z) : Aio (list Document) :=
  let! start_time := time_time in
  let! self := get_self in
  if truthy_opt (_init_error self) then
    raise (Exception ("Azure Search not properly configured: "
                      +:+ default "" (_init_error self)))
  else
    match retriever self with
    | None => raise (Exception "Azure Search retriever not initialized")
    | Some r =>
        try_except
          (let! _ := (if bool_decide (top_k r <> k)
                      then set_retriever_top_k k else ret tt) in
           wait_for (_execute_search query) execute_search_timeout)
          (fun e =>
             match e with
             | TimeoutError =>
                 let! t := time_time in
                 raise (Exception ("Azure Search timed out after "
                                   +:+ format_2f (t - start_time) +:+ " seconds"))
             | e =>
                 raise (Exception ("Error searching documents: " +:+ exn_str e))
             end)
    end.

Definition get_document_by_id (document_id : string) : Aio (option Document) :=
  try_except
    (let! documents := search_documents ("id:" +:+ document_id) 1 in
     ret (head documents))
    (fun e =>
       raise (Exception ("Error retrieving document " +:+ document_id
                         +:+ ": " +:+ exn_str e))).

(** The body of the loop of [get_document_context]. *)
Definition get_document_context_turn (documents : list Document)
  (doc_id : string) : Aio (list Document) :=
  try_except
    (let! doc := get_document_by_id doc_id in
     match doc with
     | Some d => ret (documents ++ [d])
     | None => ret documents
     end)
    (fun _ => ret documents).

Definition get_document_context (document_ids : list string) : Aio (list Document) :=
  for_each document_ids get_document_context_turn [].

(** [{"content": doc.page_content, **doc.metadata}]: a metadata key
    named content wins. *)
Definition document_to_dict (doc : Document) : gmap string pyval :=
  metadata doc ∪ {[ "content" := VStr (page_content doc) ]}.

Definition documents_to_dict (documents : list Document) : list (gmap string pyval) :=
  fold_left (fun result doc => result ++ [document_to_dict doc]) documents [].

End Methods.
End AzureSearch.

(** ** chain.py *)

(** What the chain asks of [self.search_client]; the tests replace it by a
    double. *)
Record SearchClient : Type := mkSearchClient {
  search_documents : string -> Z -> Aio (list Document);
  get_document_context : list string -> Aio (list Document)
}.

(** The three LCEL chains, built together when a model is configured: each
    is a call of the language model. *)
Record LLM : Type := mkLLM {
  context_summarizer_chain_ainvoke : string -> string -> Timed string;
  relevance_analyzer_chain_ainvoke : string -> string -> Timed string;
  structured_formatter_chain_ainvoke : string -> string -> nat -> Timed string
}.

(** The attributes of an [AzureSearchChain] instance. *)
Record AzureSearchChain : Type := mkChain {
  search_client : SearchClient;
  llm : option LLM
}.

(** The names of the nodes of the graph, and [END]. *)
Module Node.
Inductive t : Type :=
| validate_input
| search_documents
| prepare_context
| summarize_results
| analyze_results
| format_structured
| handle_error
| END.

#[global] Instance eq_dec : EqDecision t.
Proof. solve_decision. Defined.
End Node.

Module Chain.
Section Methods.

Context {env : Env}.

Record SearchState : Type := mkState {
  query : string;
  search_type : string;
  top_k : Z;
  output_format : string;
  documents : list (gmap string pyval);
  context : string;
  raw_context : string;
  metadata : gmap string pyval;
  error : option string
}.

Definition set_error (state : SearchState) (e : option string) : SearchState :=
  mkState (query state) (search_type state) (top_k state) (output_format state)
    (documents state) (context state) (raw_context state) (metadata state) e.

Definition set_documents (state : SearchState) (d : list (gmap string pyval))
  : SearchState :=
  mkState (query state) (search_type state) (top_k state) (output_format state)
    d (context state) (raw_context state) (metadata state) (error state).

Definition set_context (state : SearchState) (c : string) : SearchState :=
  mkState (query state) (search_type state) (top_k state) (output_format state)
    (documents state) c (raw_context state) (metadata state) (error state).

Definition set_raw_context (state : SearchState) (c : string) : SearchState :=
  mkState (query state) (search_type state) (top_k state) (output_format state)
    (documents state) (context state) c (metadata state) (error state).

Definition set_metadata (state : SearchState) (m : gmap string pyval)
  : SearchState :=
  mkState (query state) (search_type state) (top_k state) (output_format state)
    (documents state) (context state) (raw_context state) m (error state).

(** chain.py never imports [sys]: evaluating the name raises. *)
Definition sys_stderr : Aio unit := raise (NameError "sys").

Definition _validate_input (self : AzureSearchChain) (state : SearchState)
  : Aio SearchState :=
  if negb (truthy (strip (query state))) then
    ret (set_error state (Some "Query cannot be empty"))
  else if top_k state <=? 0 then
    ret (set_error state (Some "top_k must be greater than 0"))
  else ret state.

Definition _search_documents (self : AzureSearchChain) (state : SearchState)
  : Aio SearchState :=
  let! start_time := time_time in
  try_except
    (let! docs := wait_for
                    (search_documents (search_client self) (query state) (top_k state))
                    node_search_timeout in
     ret (set_documents state (AzureSearch.documents_to_dict docs)))
    (fun e =>
       match e with
       | TimeoutError =>
           let! t := time_time in
           let error_msg := "Node search timed out after "
                            +:+ format_2f (t - start_time) +:+ " seconds" in
           ret (set_documents (set_error state (Some error_msg)) [])
       | e =>
           let! _ := sys_stderr in
           ret (set_documents
                  (set_error state (Some ("Search error: " +:+ exn_str e))) [])
       end).

(** The body of the loop of [_prepare_context]. *)
Definition doc_section (i : nat) (doc : gmap string pyval) : string :=
  let content := get doc "content" (VStr "") in
  let title := get doc "title" (VStr ("Document " +:+ pretty i)) in
  "## " +:+ str title +:+ nl +:+ nl +:+ str content.

Definition _prepare_context (self : AzureSearchChain) (state : SearchState)
  : Aio SearchState :=
  match documents state with
  | [] => ret (set_raw_context state "No documents found for the given query.")
  | _ =>
      let context_parts :=
        fold_left (fun parts '(i, doc) => parts ++ [doc_section i doc])
          (enumerate (documents state) 1) [] in
      ret (set_raw_context state
             (join (nl +:+ nl +:+ "---" +:+ nl +:+ nl) context_parts))
  end.

Definition _summarize_results (self : AzureSearchChain) (state : SearchState)
  : Aio SearchState :=
  match llm self with
  | None =>
      ret (set_error state
             (Some "Summarizer chain is not available (LLM not configured)."))
  | Some m =>
      try_except
        (let! summary := await (context_summarizer_chain_ainvoke m
                                  (query state) (raw_context state)) in
         ret (set_context state summary))
        (fun e =>
           let! _ := sys_stderr in
           ret (set_error state
                  (Some ("Error during summarization: " +:+ exn_str e))))
  end.

Definition _analyze_results (self : AzureSearchChain) (state : SearchState)
  : Aio SearchState :=
  match llm self with
  | None =>
      ret (set_error state
             (Some "Analyzer chain is not available (LLM not configured)."))
  | Some m =>
      try_except
        (let! analysis := await (relevance_analyzer_chain_ainvoke m
                                   (query state) (raw_context state)) in
         ret (set_context state analysis))
        (fun e =>
           let! _ := sys_stderr in
           ret (set_error state
                  (Some ("Error during analysis: " +:+ exn_str e))))
  end.

Definition _format_results_structured (self : AzureSearchChain)
  (state : SearchState) : Aio SearchState :=
  match llm self with
  | None =>
      ret (set_context state
             ("Found " +:+ pretty (length (documents state)) +:+ " documents."
              +:+ nl +:+ nl +:+ raw_context state))
  | Some m =>
      try_except
        (let! formatted_docs :=
           await (structured_formatter_chain_ainvoke m (query state)
                    (raw_context state) (length (documents state))) in
         ret (set_context state formatted_docs))
        (fun e =>
           ret (set_error state
                  (Some ("Error during structured formatting: " +:+ exn_str e))))
  end.

(** [state.get("error", ...)]: the key is always there, so the default
    is never taken, and [None] is rendered by the f-string as it is. *)
Definition _handle_error (self : AzureSearchChain) (state : SearchState)
  : Aio SearchState :=
  let error_msg := match error state with Some e => VStr e | None => VNone end in
  ret (set_context state ("Error: " +:+ str error_msg)).

Definition _should_continue_after_validation (state : SearchState) : string :=
  if truthy_opt (error state) then "error" else "continue".

Definition _should_continue_after_search (state : SearchState) : string :=
  if truthy_opt (error state) then "error" else "continue".

Definition _route_to_processor (state : SearchState) : string :=
  output_format state.

(** *** [_build_graph] *)

(** [workflow.add_node(name, method)] *)
Definition node (self : AzureSearchChain) (n : Node.t)
  : SearchState -> Aio SearchState :=
  match n with
  | Node.validate_input => _validate_input self
  | Node.search_documents => _search_documents self
  | Node.prepare_context => _prepare_context self
  | Node.summarize_results => _summarize_results self
  | Node.analyze_results => _analyze_results self
  | Node.format_structured => _format_results_structured self
  | Node.handle_error => _handle_error self
  | Node.END => ret
  end.

(** The path map given after [validate_input]. *)
Definition after_validation (label : string) : option Node.t :=
  if String.eqb label "continue" then Some Node.search_documents
  else if String.eqb label "error" then Some Node.handle_error
  else None.

(** The path map given after [search_documents]. *)
Definition after_search (label : string) : option Node.t :=
  if String.eqb label "continue" then Some Node.prepare_context
  else if String.eqb label "error" then Some Node.handle_error
  else None.

(** The path map given after [prepare_context]. *)
Definition after_prepare (label : string) : option Node.t :=
  if String.eqb label "summary" then Some Node.summarize_results
  else if String.eqb label "analysis" then Some Node.analyze_results
  else if String.eqb label "structured" then Some Node.format_structured
  else None.

(** A label missing from the path map is a [KeyError]. *)
Definition follow (path_map : string -> option Node.t) (label : string)
  : exn + Node.t :=
  match path_map label with
  | Some n => inr n
  | None => inl (KeyError label)
  end.

(** The edges of the graph. *)
Definition next_node (n : Node.t) (state : SearchState) : exn + Node.t :=
  match n with
  | Node.validate_input =>
      follow after_validation (_should_continue_after_validation state)
  | Node.search_documents =>
      follow after_search (_should_continue_after_search state)
  | Node.prepare_context =>
      follow after_prepare (_route_to_processor state)
  | Node.summarize_results
  | Node.analyze_results
  | Node.format_structured
  | Node.handle_error
  | Node.END => inr Node.END
  end.

(** LangGraph's default [recursion_limit]. *)
Definition recursion_limit : nat := 25.

(** The compiled graph run from node [n]: one node per step, at most
    [steps] of them; it returns the final state and, for every node run,
    its name and the state it returned. *)
Fixpoint invoke_from (steps : nat) (self : AzureSearchChain) (n : Node.t)
  (state : SearchState) (visited : list (Node.t * SearchState))
  : Aio (SearchState * list (Node.t * SearchState)) :=
  match n with
  | Node.END => ret (state, visited)
  | _ =>
      match steps with
      | O => raise GraphRecursionError
      | S steps' =>
          let! state' := node self n state in
          match next_node n state' with
          | inl e => raise e
          | inr n' =>
              invoke_from steps' self n' state' (visited ++ [(n, state')])
          end
      end
  end.

(** [self.graph.ainvoke(initial_state)], with the trace of the run. *)
Definition graph_ainvoke (self : AzureSearchChain) (initial_state : SearchState)
  : Aio (SearchState * list (Node.t * SearchState)) :=
  invoke_from recursion_limit self Node.validate_input initial_state [].

(** *** The public methods *)

Record Response : Type := mkResponse {
  response_context : string;
  response_metadata : gmap string pyval;
  response_documents : list (gmap string pyval);
  response_success : bool
}.

(** [bool(self.llm)] *)
Definition bool_llm (self : AzureSearchChain) : bool :=
  match llm self with Some _ => true | None => false end.

Definition initial_state (query search_type : string) (top_k : Z)
  (output_format : string) : SearchState :=
  mkState query search_type top_k output_format [] "" "" ∅ None.

(** The projection of the final state made at the end of [run]. *)
Definition final_result (self : AzureSearchChain) (result : SearchState)
  : Response :=
  let result :=
    set_metadata result
      (<["total_results" := VInt (Z.of_nat (length (documents result)))]>
         (<["search_type" := VStr (search_type result)]>
            (<["query" := VStr (query result)]>
               (<["output_format" := VStr (output_format result)]>
                  (<["used_llm" := VBool (bool_llm self)]> ∅))))) in
  mkResponse (context result) (metadata result) (documents result)
    (negb (truthy_opt (error result))).

(** [run], together with the trace of the graph. *)
Definition run_traced (self : AzureSearchChain) (query search_type : string)
  (top_k : Z) (output_format : string)
  : Aio (Response * list (Node.t * SearchState)) :=
  let! r :=
    try_except
      (wait_for
         (graph_ainvoke self (initial_state query search_type top_k output_format))
         graph_execution_timeout)
      (fun e =>
         match e with
         | TimeoutError =>
             let! _ := sys_stderr in
             raise (Exception "Chain graph execution timed out after 25 seconds")
         | e =>
             let! _ := sys_stderr in
             raise e
         end) in
  ret (final_result self (fst r), snd r).

Definition run (self : AzureSearchChain) (query search_type : string)
  (top_k : Z) (output_format : string) : Aio Response :=
  let! r := run_traced self query search_type top_k output_format in
  ret (fst r).

(** The body of the loop of [get_document_context_tool]; a [Document]
    always has the two attributes the loop asks for. *)
Definition context_block (doc : Document) : string :=
  let title := get (Client.metadata doc) "title" (VStr "Untitled") in
  let content :=
    if truthy (Client.page_content doc) then Client.page_content doc
    else "No content available" in
  "**" +:+ str title +:+ "**" +:+ nl +:+ content.

Definition get_document_context_tool (self : AzureSearchChain)
  (document_ids : string) : Aio string :=
  try_except
    (let ids := map strip
                  (List.filter (fun id => truthy (strip id))
                     (split "," document_ids)) in
     match ids with
     | [] => ret "Error: No valid document IDs provided"
     | _ =>
         let! docs := get_document_context (search_client self) ids in
         match docs with
         | [] => ret "No documents found for the provided IDs"
         | _ =>
             let context_parts :=
               fold_left (fun parts doc => parts ++ [context_block doc]) docs [] in
             ret (join (nl +:+ nl +:+ "---" +:+ nl +:+ nl) context_parts)
         end
     end)
    (fun e => ret ("Error retrieving document context: " +:+ exn_str e)).

End Methods.
End Chain.

(** The client of azure_search.py as the chain's [search_client]. *)
Definition azure_search_client {env : Env} : SearchClient :=
  mkSearchClient AzureSearch.search_documents AzureSearch.get_document_context.

(** ** The construction of the client (azure_search.py) *)

Module ClientInit.
Import Client.

(** [s.split(sep)] for a separator of one character or more: the pieces
    between the occurrences of [sep] found from left to right; [skip]
    counts the characters of an occurrence still to be passed over. *)
Fixpoint split_on (sep s : string) (skip : nat) : list string :=
  match s with
  | EmptyString => [EmptyString]
  | String c s' =>
      match skip with
      | S n => split_on sep s' n
      | O =>
          if startswith sep s
          then EmptyString :: split_on sep s' (String.length sep - 1)
          else match split_on sep s' 0 with
               | p :: ps => String c p :: ps
               | [] => [String c EmptyString]
               end
      end
  end.

(** [_extract_service_name]; of the [ValueError] and of the [IndexError]
    only the text is ever used. *)
Definition _extract_service_name (endpoint : string) : string + exn :=
  if startswith "https://" endpoint then
    match nth_error (split_on "//" endpoint 0) 1 with
    | Some piece =>
        match split "." piece with
        | service_name :: _ => inl service_name
        | [] => inr (Exception "list index out of range")
        end
    | None => inr (Exception "list index out of range")
    end
  else inr (Exception ("Invalid Azure Search endpoint format: " +:+ endpoint)).

(** The names of the settings that are empty, in the order of the tests. *)
Definition missing_vars (endpoint api_key index_name : string) : list string :=
  (if truthy endpoint then [] else ["AZURE_SEARCH_ENDPOINT"])
  ++ (if truthy api_key then [] else ["AZURE_SEARCH_API_KEY"])
  ++ (if truthy index_name then [] else ["AZURE_SEARCH_INDEX_NAME"]).

(** [AzureSearchClient.__init__] on the three settings of the
    configuration; [validate] is what the constructor of
    [AzureAISearchRetriever], which is not part of the program, raises on
    the retriever asked for, if anything. *)
Definition __init__ (validate : AzureAISearchRetriever -> option exn)
  (endpoint api_key index_name : string) : AzureSearchClient :=
  if negb (truthy endpoint && truthy api_key && truthy index_name) then
    mkClient endpoint api_key index_name None
      (Some ("Azure Search configuration is incomplete. "
             +:+ "Missing environment variables: "
             +:+ join ", " (missing_vars endpoint api_key index_name)))
  else
    match _extract_service_name endpoint with
    | inr e =>
        mkClient endpoint api_key index_name None
          (Some ("Failed to initialize Azure Search retriever: " +:+ exn_str e))
    | inl service_name =>
        let r := mkRetriever service_name index_name api_key "content" 5 in
        match validate r with
        | Some e =>
            mkClient endpoint api_key index_name None
              (Some ("Failed to initialize Azure Search retriever: "
                     +:+ exn_str e))
        | None => mkClient endpoint api_key index_name (Some r) None
        end
    end.

End ClientInit.

(** ** server.py: the configuration check and the tool calls *)

Module Server.

(** The settings the server and the chain read from the configuration. *)
Record Config : Type := mkConfig {
  azure_search_endpoint : string;
  azure_search_api_key : string;
  azure_search_index_name : string;
  gemini_api_key : string
}.

(** [_check_configuration]: the warnings it records. *)
Definition _check_configuration (config : Config) : list string :=
  let missing_azure :=
    ClientInit.missing_vars (azure_search_endpoint config)
      (azure_search_api_key config) (azure_search_index_name config) in
  (match missing_azure with
   | [] => []
   | _ =>
       [ "Azure Search configuration incomplete. Missing: "
         +:+ join ", " missing_azure
         +:+ ". Search functionality will be disabled." ]
   end)
  ++ (if truthy (gemini_api_key config) then []
      else ["Gemini API key not found. LLM-based formatting will be disabled."]).

(** The attributes of an [AzureSearchMCPServer] the tool calls read. *)
Record AzureSearchMCPServer : Type := mkServer {
  _init_warnings : list string;
  search_chain : AzureSearchChain
}.

(** What [AzureSearchChain.__init__] makes of the Gemini key: the chains
    [model] when there is a key, no model otherwise. *)
Definition chain_of (config : Config) (sc : SearchClient) (model : LLM)
  : AzureSearchChain :=
  mkChain sc (if truthy (gemini_api_key config) then Some model else None).

(** [AzureSearchMCPServer.__init__] *)
Definition __init__ (config : Config) (sc : SearchClient) (model : LLM)
  : AzureSearchMCPServer :=
  mkServer (_check_configuration config) (chain_of config sc model).

(** The arguments of a tool call, typed as the input schemas of the tools
    declare them; an argument may be absent. *)
Record Arguments : Type := mkArguments {
  arg_query : option string;
  arg_top_k : option Z;
  arg_format_type : option string;
  arg_document_ids : option string
}.

(** The two characters of the message outside the code points modelled,
    U+274C and U+2022, stand as their UTF-8 bytes. *)
Definition cross_mark : string := "❌".
Definition bullet : string := "•".

(** The text returned by a search tool when the server has warnings. *)
Definition disabled_text (warnings : list string) : string :=
  cross_mark +:+ " "
  +:+ "Search functionality is disabled due to configuration issues:" +:+ nl
  +:+ join nl (map (fun w => bullet +:+ " " +:+ w) warnings)
  +:+ nl +:+ nl
  +:+ "Please set the required environment variables and restart the server.".

(** [arguments[key]] *)
Definition required {A} (key : string) (a : option A) : Aio A :=
  match a with
  | Some x => ret x
  | None => raise (KeyError key)
  end.

Section Calls.

Context {env : Env}.

(** A search tool: the branch of [_execute_tool] for the three tools that
    run the chain, [format_type] being the format the branch passes. *)
Definition search_tool (self : AzureSearchMCPServer) (arguments : Arguments)
  (format_type : string) : Aio string :=
  match _init_warnings self with
  | _ :: _ => ret (disabled_text (_init_warnings self))
  | [] =>
      let! query := required "query" (arg_query arguments) in
      let top_k := default 5 (arg_top_k arguments) in
      let! search_result :=
        Chain.run (search_chain self) query "text" top_k format_type in
      ret (Chain.response_context search_result)
  end.

(** The nested coroutine [_execute_tool] of [handle_call_tool]; server.py
    imports [sys], so its handler prints and raises again. *)
Definition _execute_tool (self : AzureSearchMCPServer) (name : string)
  (arguments : Arguments) : Aio string :=
  try_except
    (if String.eqb name "search_documents" then
       search_tool self arguments (default "structured" (arg_format_type arguments))
     else if String.eqb name "search_and_summarize" then
       search_tool self arguments "summary"
     else if String.eqb name "search_with_analysis" then
       search_tool self arguments "analysis"
     else if String.eqb name "get_document_context" then
       let! document_ids := required "document_ids" (arg_document_ids arguments) in
       Chain.get_document_context_tool (search_chain self) document_ids
     else ret ("Error: Unknown tool: " +:+ name))
    (fun e => raise e).

(** The budget of [asyncio.wait_for] around [_execute_tool]. *)
Definition tool_call_timeout : Q := 30.

(** [handle_call_tool]: the text of the one [TextContent] it returns. *)
Definition handle_call_tool (self : AzureSearchMCPServer) (name : string)
  (arguments : Arguments) : Aio string :=
  let! start_time := time_time in
  try_except
    (wait_for (_execute_tool self name arguments) tool_call_timeout)
    (fun e =>
       match e with
       | TimeoutError =>
           let! t := time_time in
           ret ("Error: Tool call timed out after "
                +:+ format_2f (t - start_time)
                +:+ "s. The search service may be experiencing delays.")
       | e => ret ("Error: Tool call failed: " +:+ exn_str e)
       end).

End Calls.
End Server.

(** ** The specification's vocabulary *)

(** A query or an id list is blank when it is empty or whitespace-only. *)
Fixpoint whitespace_only (s : string) : bool :=
  match s with
  | EmptyString => true
  | String c s' => isspace c && whitespace_only s'
  end.

(** The character [c] occurs in [s]: [c in s]. *)
Fixpoint occurs (c : ascii) (s : string) : bool :=
  match s with
  | EmptyString => false
  | String a s' => Ascii.eqb a c || occurs c s'
  end.

(** The separator between the sections of a context. *)
Definition separator : string := nl +:+ nl +:+ "---" +:+ nl +:+ nl.

(** The section of the document with 1-based index [i] in a context:
    [## title], a blank line, the content.  The title is the value under
    the key [title] rendered as an f-string renders it, whatever that
    value is, and [Document i] only for a document without that key; the
    content is the value under [content], nothing without that key. *)
Definition section_of (i : nat) (doc : gmap string pyval) : string :=
  "## "
  +:+ match doc !! "title" with
      | Some title => str title
      | None => "Document " +:+ pretty i
      end
  +:+ nl +:+ nl
  +:+ match doc !! "content" with
      | Some content => str content
      | None => ""
      end.

(** The context of a document list: the fixed sentence for no document,
    otherwise the sections above joined by the separator. *)
Definition ContextBuilder (docs : list (gmap string pyval)) : string :=
  match docs with
  | [] => "No documents found for the given query."
  | _ => join separator (imap (fun i doc => section_of (S i) doc) docs)
  end.

(** [bool(v)] for a value of a dictionary. *)
Definition truthy_value (v : pyval) : bool :=
  match v with
  | VNone => false
  | VBool b => b
  | VInt z => negb (z =? 0)
  | VStr s => truthy s
  end.

(** [title or 'Document {i}'], the title in the specification's words:
    the document's title when it has one that counts as true, and
    [Document i] when it has none, or one that is [None], empty or
    otherwise false. *)
Definition title_or_default (i : nat) (doc : gmap string pyval) : string :=
  match doc !! "title" with
  | Some title =>
      if truthy_value title then str title else "Document " +:+ pretty i
  | None => "Document " +:+ pretty i
  end.

(** The section in the specification's words:
    [## {title or 'Document {i}'}], a blank line, the content. *)
Definition section_as_specified (i : nat) (doc : gmap string pyval) : string :=
  "## " +:+ title_or_default i doc
  +:+ nl +:+ nl
  +:+ match doc !! "content" with
      | Some content => str content
      | None => ""
      end.

(** The ContextBuilder in the specification's words. *)
Definition ContextBuilder_as_specified (docs : list (gmap string pyval))
  : string :=
  match docs with
  | [] => "No documents found for the given query."
  | _ => join separator (imap (fun i doc => section_as_specified (S i) doc) docs)
  end.

(** The document has no title, or one that counts as true. *)
Definition titled (doc : gmap string pyval) : bool :=
  match doc !! "title" with
  | Some title => truthy_value title
  | None => true
  end.

(** The fields of a state that no stage of the graph writes. *)
Definition same_request (state state' : Chain.SearchState) : Prop :=
  Chain.query state' = Chain.query state
  /\ Chain.search_type state' = Chain.search_type state
  /\ Chain.top_k state' = Chain.top_k state
  /\ Chain.output_format state' = Chain.output_format state
  /\ Chain.metadata state' = Chain.metadata state.

(** C1 as the specification words it: [_prepare_context] returns, with
    [raw_context] the ContextBuilder of the specification's words and
    [error] as it was. *)
Definition prepare_context_as_specified : Prop :=
  forall (self : AzureSearchChain) (state : Chain.SearchState) (w : World),
    exists state',
      Chain._prepare_context self state w = mkOutcome w (inl state')
      /\ Chain.raw_context state' = ContextBuilder_as_specified (Chain.documents state)
      /\ Chain.error state' = Chain.error state.

(** The ids of a comma-separated id list: its non-blank pieces, trimmed. *)
Definition ids_of (document_ids : string) : list string :=
  map strip (List.filter (fun id => truthy (strip id)) (split "," document_ids)).

(** The client can search: construction left no error and a retriever. *)
Definition configured (c : AzureSearchClient) : bool :=
  negb (truthy_opt (Client._init_error c))
  && match Client.retriever c with Some _ => true | None => false end.

(** The specification's resolution of one id, on its own: the first
    document the index returns in time for the query [id:{id}] with one
    result asked for; no document when the index fails, is late or finds
    nothing. *)
Definition resolve_id {env : Env} (id : string) : option Document :=
  let t := invoke 1 ("id:" +:+ id) in
  if Qle_bool (duration t) invoke_timeout then
    match answer t with
    | inl docs => head docs
    | inr _ => None
    end
  else None.

(** The client after a call that asked for [k] results. *)
Definition with_top_k (c : AzureSearchClient) (k : Z) : AzureSearchClient :=
  if configured c then
    Client.mkClient (Client.endpoint c) (Client.api_key c) (Client.index_name c)
      (option_map
         (fun r => Client.mkRetriever (Client.service_name r)
                     (Client.retriever_index_name r) (Client.retriever_api_key r)
                     (Client.content_key r) k)
         (Client.retriever c))
      (Client._init_error c)
  else c.

(** The state [handle_error] leaves when the error [msg] stopped the state
    [state]. *)
Definition rejected (state : Chain.SearchState) (msg : string)
  : Chain.SearchState :=
  Chain.set_context (Chain.set_error state (Some msg)) ("Error: " +:+ msg).

(** C4 as the specification words it: whatever the query, a run with
    [top_k <= 0] ends with the error text of the [top_k] check and without
    success. *)
Definition top_k_error_for_any_query {env : Env} : Prop :=
  forall (self : AzureSearchChain) (query search_type : string) (top_k : Z)
         (output_format : string) (w : World),
    top_k <= 0 ->
    exists response trace final,
      value (Chain.run_traced self query search_type top_k output_format w)
      = inl (response, trace)
      /\ last trace = Some (Node.handle_error, final)
      /\ Chain.error final = Some "top_k must be greater than 0"
      /\ Chain.response_success response = false.

(** The world after a search that asked the configured client for [k]
    results at time [t]. *)
Definition searched_world (w : World) (query : string) (k : Z) (t : Q) : World :=
  mkWorld (with_top_k (client w) k) (invocations w ++ [(k, query)]) t.

(** C8 as the specification words it: a search leaves every field of the
    shared client as it was. *)
Definition client_untouched_by_search {env : Env} : Prop :=
  forall (query : string) (k : Z) (w : World),
    client (after (AzureSearch.search_documents query k w)) = client w.

(** What holds of the states a run has gone through and of its current
    state: every [error] is absent or non-empty, an error once set stays
    set, and the current state is the one the last node returned. *)
Definition trace_ok (visited : list (Node.t * Chain.SearchState))
  (state : Chain.SearchState) : Prop :=
  (Chain.error state = None \/ truthy_opt (Chain.error state) = true)
  /\ (forall p, p ∈ visited ->
        Chain.error p.2 = None \/ truthy_opt (Chain.error p.2) = true)
  /\ (forall p, p ∈ visited ->
        truthy_opt (Chain.error p.2) = true ->
        truthy_opt (Chain.error state) = true)
  /\ (visited = [] \/ exists n, last visited = Some (n, state)).

(** The tools of the server that run the chain. *)
Definition search_tool_names : list string :=
  ["search_documents"; "search_and_summarize"; "search_with_analysis"].

(** The output format a search tool passes to [run]. *)
Definition format_of (name : string) (arguments : Server.Arguments) : string :=
  if String.eqb name "search_documents"
  then default "structured" (Server.arg_format_type arguments)
  else if String.eqb name "search_and_summarize" then "summary"
  else "analysis".

(** Every setting of the configuration is there. *)
Definition complete (config : Server.Config) : bool :=
  truthy (Server.azure_search_endpoint config)
  && truthy (Server.azure_search_api_key config)
  && truthy (Server.azure_search_index_name config)
  && truthy (Server.gemini_api_key config).

(** ** Worlds, services and chains to run the definitions on *)

Module Sample.

(** An index holding two documents: it answers the query [id:d1], and any
    query starting with q, fails on [id:bad], takes 40 seconds on the
    query slow and finds nothing otherwise. *)
Definition doc1 : Document :=
  Client.mkDocument "x" {[ "title" := VStr "A" ]}.
Definition doc2 : Document := Client.mkDocument "y" ∅.

Definition index (k : Z) (query : string) : Timed (list Document) :=
  if String.eqb query "id:d1" then mkTimed 1 (inl [doc1])
  else if String.eqb query "id:bad" then mkTimed 1 (inr (Exception "boom"))
  else if String.eqb query "slow" then mkTimed 40 (inl [doc1])
  else if String.prefix "q" query then mkTimed 2 (inl (take (Z.to_nat k) [doc1; doc2]))
  else mkTimed 1 (inl []).

Definition env : Env := mkEnv index (fun _ => "45.00").

Definition retriever : Client.AzureAISearchRetriever :=
  Client.mkRetriever "svc" "idx" "key" "content" 5.

Definition client : AzureSearchClient :=
  Client.mkClient "https://svc.search.windows.net" "key" "idx" (Some retriever) None.

Definition world : World := mkWorld client [] 0.

(** A chain on the real client, without a language model. *)
Definition chain : AzureSearchChain :=
  mkChain (@azure_search_client env) None.

(** A double of the client whose search takes 50 seconds. *)
Definition slow_client : SearchClient :=
  mkSearchClient (fun _ _ => await (mkTimed 50 (inl [])))
                 (fun _ => ret []).

Definition slow_chain : AzureSearchChain := mkChain slow_client None.

(** A state holding two documents and their context. *)
Definition state : Chain.SearchState :=
  Chain.mkState "q" "text" 5 "structured"
    [ {[ "content" := VStr "x" ]}; {[ "content" := VStr "y" ]} ]
    "" "ctx" ∅ None.


(** A server without warnings on the chain above, and a configuration
    with every Azure Search setting but no Gemini key. *)
Definition server : Server.AzureSearchMCPServer := Server.mkServer [] chain.

Definition config_without_key : Server.Config :=
  Server.mkConfig "https://svc.search.windows.net" "key" "idx" "".

Definition model : LLM :=
  mkLLM (fun _ _ => mkTimed 1 (inl "summary"))
        (fun _ _ => mkTimed 1 (inl "analysis"))
        (fun _ _ _ => mkTimed 1 (inl "structured")).

Definition arguments : Server.Arguments :=
  Server.mkArguments (Some "q") None None (Some "d1, bad ,,zz").

End Sample.

(** ** Blank strings *)

Lemma lstrip_blank (s : string) :
  whitespace_only s = true -> lstrip s = EmptyString.
Proof.
  induction s as [|c s IH]; simpl; [reflexivity|].
  intros H. apply andb_prop in H as [Hc Hs]. rewrite Hc. auto.
Qed.

Lemma rstrip_empty_blank (s : string) :
  rstrip s = EmptyString -> whitespace_only s = true.
Proof.
  induction s as [|c s IH]; simpl; [reflexivity|].
  destruct (rstrip s) eqn:Hr; [|discriminate].
  destruct (isspace c); [|discriminate].
  intros _. simpl. auto.
Qed.

Lemma lstrip_blank_inv (s : string) :
  whitespace_only (lstrip s) = true -> whitespace_only s = true.
Proof.
  induction s as [|c s IH]; simpl; [reflexivity|].
  destruct (isspace c) eqn:Hc; simpl.
  - auto.
  - rewrite Hc. simpl. auto.
Qed.

Lemma strip_blank (s : string) :
  strip s = EmptyString <-> whitespace_only s = true.
Proof.
  unfold strip. split.
  - intros H. apply lstrip_blank_inv, rstrip_empty_blank, H.
  - intros H. rewrite (lstrip_blank s H). reflexivity.
Qed.

Lemma truthy_strip (s : string) :
  truthy (strip s) = negb (whitespace_only s).
Proof.
  destruct (whitespace_only s) eqn:H.
  - apply strip_blank in H. rewrite H. reflexivity.
  - destruct (strip s) eqn:Hs; [|reflexivity].
    apply strip_blank in Hs. congruence.
Qed.



(** ** Clock arithmetic *)

Lemma Qle_bool_ext (x y t : Q) : (x == y)%Q -> Qle_bool x t = Qle_bool y t.
Proof.
  intros E. apply Bool.eq_iff_eq_true.
  rewrite !Qle_bool_iff, E. reflexivity.
Qed.

Lemma elapsed_none (x t : Q) : (0 <= t)%Q -> Qle_bool (x - x) t = true.
Proof.
  intros H. rewrite (Qle_bool_ext (x - x) 0 t) by ring.
  apply Qle_bool_iff, H.
Qed.

Lemma elapsed_await (x d t : Q) : Qle_bool (x + d - x) t = Qle_bool d t.
Proof. apply Qle_bool_ext. ring. Qed.

Lemma wait_for_instant {A} (m : Aio A) (t : Q) (w : World) :
  (0 <= t)%Q -> now (after (m w)) = now w -> wait_for m t w = m w.
Proof.
  intros Ht E. unfold wait_for. rewrite E, elapsed_none by exact Ht. reflexivity.
Qed.

(** ** PrepareContext *)

Section PrepareContext.

Lemma doc_section_spec (i : nat) (doc : gmap string pyval) :
  Chain.doc_section i doc = section_of i doc.
Proof.
  unfold Chain.doc_section, section_of, get.
  destruct (doc !! "title"), (doc !! "content"); reflexivity.
Qed.

Lemma context_parts_spec (docs : list (gmap string pyval)) :
  forall (start : nat) (parts : list string),
    fold_left (fun parts '(i, doc) => parts ++ [Chain.doc_section i doc])
      (enumerate docs start) parts
    = parts ++ imap (fun i doc => section_of (start + i) doc) docs.
Proof.
  induction docs as [|doc docs IH]; intros start parts; simpl.
  - rewrite app_nil_r. reflexivity.
  - rewrite IH, doc_section_spec, <- app_assoc. simpl.
    rewrite Nat.add_0_r. do 2 f_equal.
    apply imap_ext. intros i d _. simpl. f_equal. lia.
Qed.

Lemma prepare_context_spec (self : AzureSearchChain)
  (state : Chain.SearchState) (w : World) :
  Chain._prepare_context self state w
  = mkOutcome w
      (inl (Chain.set_raw_context state (ContextBuilder (Chain.documents state)))).
Proof.
  unfold Chain._prepare_context, ContextBuilder.
  destruct (Chain.documents state) as [|doc docs] eqn:E; [reflexivity|].
  rewrite context_parts_spec. reflexivity.
Qed.

Lemma section_titled (i : nat) (doc : gmap string pyval) :
  titled doc = true -> section_of i doc = section_as_specified i doc.
Proof.
  unfold titled, section_of, section_as_specified, title_or_default.
  destruct (doc !! "title") as [title|]; [|reflexivity].
  intros ->. reflexivity.
Qed.

Lemma context_titled (docs : list (gmap string pyval)) :
  forallb titled docs = true ->
  ContextBuilder docs = ContextBuilder_as_specified docs.
Proof.
  intros H. unfold ContextBuilder, ContextBuilder_as_specified.
  destruct docs as [|doc docs]; [reflexivity|].
  f_equal. apply imap_ext. intros i d Hi.
  apply section_titled.
  apply (proj1 (forallb_forall titled (doc :: docs)) H).
  apply list_elem_of_In. exact (list_elem_of_lookup_2 _ _ _ Hi).
Qed.

(** C1, as worded, fails: a document whose title is [None] (a null field
    of the index, copied by [documents_to_dict]) is headed [## None] by
    [_prepare_context], where [title or 'Document {i}'] gives
    [## Document 1]; an empty title is headed by nothing in the same
    way. *)
Lemma prepare_context_as_specified_fails : ~ prepare_context_as_specified.
Proof.
  intros H.
  pose (docs := AzureSearch.documents_to_dict
                  [Client.mkDocument "y" {[ "title" := VNone ]}]).
  destruct (H Sample.chain
              (Chain.mkState "q" "text" 5 "structured" docs "" "" ∅ None)
              Sample.world)
    as (state' & Hrun & Hraw & _).
  rewrite prepare_context_spec in Hrun.
  injection Hrun as <-. vm_compute in Hraw. discriminate Hraw.
Qed.

(** C1, amended: [_prepare_context] returns for every state, in every
    world and without touching the world; the state it returns has
    [raw_context] set to the context of the documents and every other
    field, so [error], as it was.  The context is the fixed sentence for
    no documents and otherwise the sections [## title], blank line,
    content of the documents in order, joined by the separator; the title
    of a section is the document's value under [title] as an f-string
    renders it, and [Document i] for its 1-based index i only when the
    document has no such key.  The two-document example of the
    specification evaluates to the text given there, and on documents
    whose title, if any, counts as true the context is the one of the
    specification's words. *)
Theorem prepare_context_total (self : AzureSearchChain)
  (state : Chain.SearchState) (w : World) :
  (exists state',
     Chain._prepare_context self state w = mkOutcome w (inl state')
     /\ Chain.raw_context state' = ContextBuilder (Chain.documents state)
     /\ Chain.error state' = Chain.error state
     /\ Chain.documents state' = Chain.documents state
     /\ Chain.context state' = Chain.context state
     /\ same_request state state')
  /\ ContextBuilder [] = "No documents found for the given query."
  /\ (forall doc docs,
        ContextBuilder (doc :: docs)
        = join (nl +:+ nl +:+ "---" +:+ nl +:+ nl)
            (imap (fun i d => section_of (S i) d) (doc :: docs)))
  /\ (forall i d,
        section_of i d
        = "## " +:+ str (default (VStr ("Document " +:+ pretty i)) (d !! "title"))
          +:+ nl +:+ nl +:+ str (default (VStr "") (d !! "content")))
  /\ ContextBuilder
       [ {[ "title" := VStr "A"; "content" := VStr "x" ]};
         {[ "content" := VStr "y" ]} ]
     = "## A" +:+ nl +:+ nl +:+ "x" +:+ nl +:+ nl +:+ "---" +:+ nl +:+ nl
       +:+ "## Document 2" +:+ nl +:+ nl +:+ "y"
  /\ (forall docs,
        forallb titled docs = true ->
        ContextBuilder docs = ContextBuilder_as_specified docs).
Proof.
  split; [|split; [|split; [|split; [|split]]]].
  - eexists. split; [apply prepare_context_spec|].
    unfold same_request. cbn. repeat split.
  - reflexivity.
  - reflexivity.
  - intros i d. unfold section_of.
    destruct (d !! "title"), (d !! "content"); reflexivity.
  - vm_compute. reflexivity.
  - exact context_titled.
Qed.

End PrepareContext.

Lemma prepare_context_total_witness :
  exists state',
    Chain._prepare_context Sample.chain
      (Chain.mkState "q" "text" 5 "structured"
         [ {[ "title" := VStr "A"; "content" := VStr "x" ]};
           {[ "title" := VStr ""; "content" := VStr "z" ]};
           {[ "content" := VStr "y" ]} ]
         "" "" ∅ (Some "kept"))
      Sample.world
    = mkOutcome Sample.world (inl state')
    /\ Chain.raw_context state'
       = "## A" +:+ nl +:+ nl +:+ "x" +:+ nl +:+ nl +:+ "---" +:+ nl +:+ nl
         +:+ "## " +:+ nl +:+ nl +:+ "z" +:+ nl +:+ nl +:+ "---" +:+ nl +:+ nl
         +:+ "## Document 3" +:+ nl +:+ nl +:+ "y"
    /\ Chain.error state' = Some "kept".
Proof.
  destruct (prepare_context_total Sample.chain
              (Chain.mkState "q" "text" 5 "structured"
                 [ {[ "title" := VStr "A"; "content" := VStr "x" ]};
                   {[ "title" := VStr ""; "content" := VStr "z" ]};
                   {[ "content" := VStr "y" ]} ]
                 "" "" ∅ (Some "kept"))
              Sample.world)
    as ((state' & Hrun & Hraw & Herr & _) & _).
  exists state'. split; [exact Hrun|]. split; [|exact Herr].
  rewrite Hraw. vm_compute. reflexivity.
Defined.

(** ** The formatting stages without a language model *)

Section NoModel.

(** C2: with no language model configured, [_summarize_results] and
    [_analyze_results] return (they do not raise) a state whose [error]
    is their fixed sentence, and [_format_results_structured] returns a
    state whose [error] is what it was and whose [context] is
    [Found N documents.], a blank line and [raw_context], N being the
    number of documents of the state; every other field of the state is
    as it was, and none of the three touches the world. *)
Theorem no_model_stages (self : AzureSearchChain) (state : Chain.SearchState)
  (w : World) :
  llm self = None ->
  (exists state',
     Chain._summarize_results self state w = mkOutcome w (inl state')
     /\ Chain.error state'
        = Some "Summarizer chain is not available (LLM not configured)."
     /\ Chain.context state' = Chain.context state
     /\ Chain.raw_context state' = Chain.raw_context state
     /\ Chain.documents state' = Chain.documents state
     /\ same_request state state')
  /\ (exists state',
        Chain._analyze_results self state w = mkOutcome w (inl state')
        /\ Chain.error state'
           = Some "Analyzer chain is not available (LLM not configured)."
        /\ Chain.context state' = Chain.context state
        /\ Chain.raw_context state' = Chain.raw_context state
        /\ Chain.documents state' = Chain.documents state
        /\ same_request state state')
  /\ (exists state',
        Chain._format_results_structured self state w = mkOutcome w (inl state')
        /\ Chain.error state' = Chain.error state
        /\ Chain.context state'
           = "Found " +:+ pretty (length (Chain.documents state))
             +:+ " documents." +:+ nl +:+ nl +:+ Chain.raw_context state
        /\ Chain.raw_context state' = Chain.raw_context state
        /\ Chain.documents state' = Chain.documents state
        /\ same_request state state').
Proof.
  intros H.
  unfold Chain._summarize_results, Chain._analyze_results,
    Chain._format_results_structured, same_request.
  rewrite H.
  split; [|split]; eexists; (split; [reflexivity|]); cbn; repeat split.
Qed.

End NoModel.

Lemma no_model_stages_witness :
  llm Sample.chain = None
  /\ (exists state',
        Chain._summarize_results Sample.chain Sample.state Sample.world
        = mkOutcome Sample.world (inl state')
        /\ Chain.error state'
           = Some "Summarizer chain is not available (LLM not configured)."
        /\ Chain.context state' = "")
  /\ (exists state',
        Chain._analyze_results Sample.chain Sample.state Sample.world
        = mkOutcome Sample.world (inl state')
        /\ Chain.error state'
           = Some "Analyzer chain is not available (LLM not configured)."
        /\ Chain.context state' = "")
  /\ (exists state',
        Chain._format_results_structured Sample.chain Sample.state Sample.world
        = mkOutcome Sample.world (inl state')
        /\ Chain.error state' = None
        /\ Chain.context state' = "Found 2 documents." +:+ nl +:+ nl +:+ "ctx").
Proof.
  split; [reflexivity|].
  destruct (no_model_stages Sample.chain Sample.state Sample.world eq_refl)
    as ((s & Hs & Hse & Hsc & _) & (a & Ha & Hae & Hac & _)
        & (f & Hf & Hfe & Hfc & _)).
  split; [|split].
  - exists s. split; [exact Hs|]. split; [exact Hse|exact Hsc].
  - exists a. split; [exact Ha|]. split; [exact Hae|exact Hac].
  - exists f. split; [exact Hf|]. split; [exact Hfe|exact Hfc].
Defined.

(** ** The steps of the graph *)

Lemma invoke_from_END {env : Env} (steps : nat) (self : AzureSearchChain)
  (state : Chain.SearchState) (visited : list (Node.t * Chain.SearchState))
  (w : World) :
  Chain.invoke_from steps self Node.END state visited w
  = mkOutcome w (inl (state, visited)).
Proof. destruct steps; reflexivity. Qed.

Lemma invoke_from_step {env : Env} (steps : nat) (self : AzureSearchChain) (n : Node.t)
  (state : Chain.SearchState) (visited : list (Node.t * Chain.SearchState))
  (w : World) :
  n <> Node.END ->
  Chain.invoke_from (S steps) self n state visited w
  = match value (Chain.node self n state w) with
    | inl state' =>
        match Chain.next_node n state' with
        | inl e => mkOutcome (after (Chain.node self n state w)) (inr e)
        | inr n' =>
            Chain.invoke_from steps self n' state' (visited ++ [(n, state')])
              (after (Chain.node self n state w))
        end
    | inr e => mkOutcome (after (Chain.node self n state w)) (inr e)
    end.
Proof.
  intros Hn. destruct n; try contradiction;
    (cbn [Chain.invoke_from]; unfold bind;
     destruct (value (Chain.node self _ state w)) as [state'|e];
     [destruct (Chain.next_node _ state')|]; reflexivity).
Qed.

Arguments Chain.invoke_from : simpl never.
Arguments Chain.graph_ainvoke : simpl never.

(** ** ValidateInput and the runs it stops *)

Section Validation.

Context {env : Env}.

Lemma validate_input_spec (self : AzureSearchChain) (state : Chain.SearchState)
  (w : World) :
  Chain._validate_input self state w
  = mkOutcome w
      (inl (if whitespace_only (Chain.query state)
            then Chain.set_error state (Some "Query cannot be empty")
            else if Chain.top_k state <=? 0
                 then Chain.set_error state (Some "top_k must be greater than 0")
                 else state)).
Proof.
  unfold Chain._validate_input. rewrite truthy_strip, negb_involutive.
  destruct (whitespace_only (Chain.query state)); [reflexivity|].
  destruct (Chain.top_k state <=? 0); reflexivity.
Qed.

Lemma graph_rejects (self : AzureSearchChain) (init : Chain.SearchState)
  (msg : string) (w : World) :
  Chain._validate_input self init w
  = mkOutcome w (inl (Chain.set_error init (Some msg))) ->
  truthy msg = true ->
  Chain.graph_ainvoke self init w
  = mkOutcome w
      (inl (rejected init msg,
            [ (Node.validate_input, Chain.set_error init (Some msg));
              (Node.handle_error, rejected init msg) ])).
Proof.
  intros Hv Ht. unfold Chain.graph_ainvoke, Chain.recursion_limit.
  rewrite invoke_from_step by discriminate.
  cbn [Chain.node]. rewrite Hv. cbn [value after Chain.next_node].
  unfold Chain._should_continue_after_validation.
  cbn [Chain.error Chain.set_error truthy_opt]. rewrite Ht.
  cbn [Chain.follow Chain.after_validation String.eqb Ascii.eqb Bool.eqb].
  rewrite invoke_from_step by discriminate.
  cbn [Chain.node Chain._handle_error ret value after Chain.next_node].
  rewrite invoke_from_END. reflexivity.
Qed.

Lemma run_rejects (self : AzureSearchChain) (query search_type : string)
  (top_k : Z) (output_format msg : string) (w : World) :
  let init := Chain.initial_state query search_type top_k output_format in
  Chain._validate_input self init w
  = mkOutcome w (inl (Chain.set_error init (Some msg))) ->
  truthy msg = true ->
  Chain.run_traced self query search_type top_k output_format w
  = mkOutcome w
      (inl (Chain.final_result self (rejected init msg),
            [ (Node.validate_input, Chain.set_error init (Some msg));
              (Node.handle_error, rejected init msg) ])).
Proof.
  intros init Hv Ht. unfold Chain.run_traced, bind, try_except.
  fold init. rewrite wait_for_instant.
  - rewrite (graph_rejects self init msg w Hv Ht). reflexivity.
  - unfold graph_execution_timeout. discriminate.
  - rewrite (graph_rejects self init msg w Hv Ht). reflexivity.
Qed.

End Validation.

(** C3: a run whose query is empty or whitespace-only returns, having run
    [validate_input] and then [handle_error] and nothing else; the final
    state has [error] equal to [Query cannot be empty] and [context] equal
    to [Error: Query cannot be empty], which is the response's text; the
    response has [success] false; the world is the one the run started in,
    so the retriever was not invoked. *)
Theorem blank_query_rejected {env : Env} (self : AzureSearchChain)
  (query search_type : string) (top_k : Z) (output_format : string) (w : World) :
  whitespace_only query = true ->
  exists response validated final,
    Chain.run_traced self query search_type top_k output_format w
    = mkOutcome w
        (inl (response,
              [ (Node.validate_input, validated); (Node.handle_error, final) ]))
    /\ Chain.run self query search_type top_k output_format w
       = mkOutcome w (inl response)
    /\ Chain.error validated = Some "Query cannot be empty"
    /\ Chain.error final = Some "Query cannot be empty"
    /\ Chain.context final = "Error: Query cannot be empty"
    /\ Chain.response_context response = "Error: Query cannot be empty"
    /\ Chain.response_success response = false
    /\ invocations
         (after (Chain.run self query search_type top_k output_format w))
       = invocations w.
Proof.
  intros Hq.
  pose (init := Chain.initial_state query search_type top_k output_format).
  assert (Hrun : Chain.run_traced self query search_type top_k output_format w
                 = mkOutcome w
                     (inl (Chain.final_result self
                             (rejected init "Query cannot be empty"),
                           [ (Node.validate_input,
                              Chain.set_error init (Some "Query cannot be empty"));
                             (Node.handle_error,
                              rejected init "Query cannot be empty") ]))).
  { apply run_rejects; [|reflexivity].
    rewrite validate_input_spec. cbn [Chain.initial_state Chain.query].
    rewrite Hq. reflexivity. }
  do 3 eexists. split; [exact Hrun|].
  unfold Chain.run, bind. rewrite Hrun.
  repeat (split; [reflexivity|]). reflexivity.
Qed.

Lemma blank_query_rejected_witness :
  whitespace_only ("  " +:+ nl) = true
  /\ exists response,
       Chain.run (env := Sample.env) Sample.chain ("  " +:+ nl) "text" 5
         "analysis" Sample.world
       = mkOutcome Sample.world (inl response)
       /\ Chain.response_context response = "Error: Query cannot be empty"
       /\ Chain.response_success response = false.
Proof.
  split; [reflexivity|].
  destruct (blank_query_rejected (env := Sample.env) Sample.chain ("  " +:+ nl)
              "text" 5 "analysis" Sample.world eq_refl)
    as (response & validated & final & _ & Hrun & _ & _ & _ & Hc & Hs & _).
  exists response. auto.
Defined.

(** C10: when the query is empty or whitespace-only and [top_k <= 0] as
    well, [_validate_input] returns the state with [error] set to
    [Query cannot be empty] alone: the [top_k] check sits in the [elif] and
    its message is not produced. *)
Theorem validate_query_precedence (self : AzureSearchChain)
  (state : Chain.SearchState) (w : World) :
  whitespace_only (Chain.query state) = true ->
  Chain.top_k state <= 0 ->
  exists state',
    Chain._validate_input self state w = mkOutcome w (inl state')
    /\ state' = Chain.set_error state (Some "Query cannot be empty")
    /\ Chain.error state' = Some "Query cannot be empty"
    /\ Chain.error state' <> Some "top_k must be greater than 0".
Proof.
  intros Hq _. eexists. split.
  - rewrite validate_input_spec, Hq. reflexivity.
  - split; [reflexivity|]. split; [reflexivity|]. discriminate.
Qed.

Lemma validate_query_precedence_witness :
  whitespace_only (Chain.query (Chain.initial_state " " "text" (-1) "summary")) = true
  /\ Chain.top_k (Chain.initial_state " " "text" (-1) "summary") <= 0
  /\ exists state',
       Chain._validate_input Sample.chain
         (Chain.initial_state " " "text" (-1) "summary") Sample.world
       = mkOutcome Sample.world (inl state')
       /\ Chain.error state' = Some "Query cannot be empty".
Proof.
  split; [reflexivity|]. split; [discriminate|].
  destruct (validate_query_precedence Sample.chain
              (Chain.initial_state " " "text" (-1) "summary") Sample.world
              eq_refl ltac:(discriminate))
    as (state' & Hv & _ & He & _).
  exists state'. auto.
Defined.

(** C4, as worded, fails: with an empty query and [top_k = 0] the run ends
    with the error text of the query check. *)
Lemma top_k_error_for_any_query_fails :
  ~ top_k_error_for_any_query (env := Sample.env).
Proof.
  intros H.
  destruct (H Sample.chain "" "text" 0 "analysis" Sample.world ltac:(discriminate))
    as (response & trace & final & Hrun & Hlast & Herr & _).
  rewrite (run_rejects (env := Sample.env) Sample.chain "" "text" 0 "analysis"
             "Query cannot be empty" Sample.world eq_refl eq_refl) in Hrun.
  cbn [value] in Hrun. injection Hrun as _ Htrace. subst trace.
  cbn [last] in Hlast. injection Hlast as Hfinal. subst final.
  discriminate Herr.
Qed.

(** C4, amended: a run with [top_k <= 0] returns, having run
    [validate_input] and then [handle_error], with [success] false and
    without invoking the retriever; the error text is that of the [top_k]
    check when the query is neither empty nor whitespace-only, and that of
    the query check otherwise. *)
Theorem nonpositive_top_k_rejected {env : Env} (self : AzureSearchChain)
  (query search_type : string) (top_k : Z) (output_format : string) (w : World) :
  top_k <= 0 ->
  exists response validated final,
    Chain.run_traced self query search_type top_k output_format w
    = mkOutcome w
        (inl (response,
              [ (Node.validate_input, validated); (Node.handle_error, final) ]))
    /\ Chain.run self query search_type top_k output_format w
       = mkOutcome w (inl response)
    /\ Chain.error final
       = Some (if whitespace_only query then "Query cannot be empty"
               else "top_k must be greater than 0")
    /\ Chain.response_context response
       = "Error: " +:+ (if whitespace_only query then "Query cannot be empty"
                        else "top_k must be greater than 0")
    /\ Chain.response_success response = false.
Proof.
  intros Hk.
  pose (init := Chain.initial_state query search_type top_k output_format).
  pose (msg := if whitespace_only query then "Query cannot be empty"
               else "top_k must be greater than 0").
  assert (Hrun : Chain.run_traced self query search_type top_k output_format w
                 = mkOutcome w
                     (inl (Chain.final_result self (rejected init msg),
                           [ (Node.validate_input, Chain.set_error init (Some msg));
                             (Node.handle_error, rejected init msg) ]))).
  { apply run_rejects.
    - rewrite validate_input_spec.
      cbn [Chain.initial_state Chain.query Chain.top_k]. unfold msg.
      destruct (whitespace_only query); [reflexivity|].
      apply Z.leb_le in Hk. rewrite Hk. reflexivity.
    - unfold msg. destruct (whitespace_only query); reflexivity. }
  do 3 eexists. split; [exact Hrun|].
  unfold Chain.run, bind. rewrite Hrun. subst msg.
  destruct (whitespace_only query);
    (repeat (split; [reflexivity|])); reflexivity.
Qed.

Lemma nonpositive_top_k_rejected_witness :
  0 <= 0
  /\ exists response,
       Chain.run (env := Sample.env) Sample.chain "q" "text" 0 "analysis"
         Sample.world
       = mkOutcome Sample.world (inl response)
       /\ Chain.response_context response = "Error: top_k must be greater than 0"
       /\ Chain.response_success response = false.
Proof.
  split; [discriminate|].
  destruct (nonpositive_top_k_rejected (env := Sample.env) Sample.chain "q"
              "text" 0 "analysis" Sample.world ltac:(discriminate))
    as (response & validated & final & _ & Hrun & _ & Hc & Hs).
  exists response. auto.
Defined.

(** ** The search stage *)

Lemma Qle_bool_late (x t : Q) : (t < x)%Q -> Qle_bool x t = false.
Proof.
  intros H. destruct (Qle_bool x t) eqn:E; [|reflexivity].
  apply Qle_bool_iff in E. exfalso. exact (Qlt_not_le _ _ H E).
Qed.

Section SearchStage.

Context {env : Env}.

(** The error text the stage records when its budget runs out. *)
Lemma timeout_text (elapsed : Q) :
  startswith "Node search timed out after"
    ("Node search timed out after " +:+ format_2f elapsed +:+ " seconds") = true.
Proof. reflexivity. Qed.

(** What the search stage can do: record the documents, record a
    time-out, or raise. *)
Lemma search_stage_outcome (self : AzureSearchChain) (state : Chain.SearchState)
  (w : World) :
  (exists docs,
      value (Chain._search_documents self state w)
      = inl (Chain.set_documents state docs))
  \/ (exists msg,
         startswith "Node search timed out after" msg = true
         /\ value (Chain._search_documents self state w)
            = inl (Chain.set_documents (Chain.set_error state (Some msg)) []))
  \/ (exists e, value (Chain._search_documents self state w) = inr e).
Proof.
  unfold Chain._search_documents, bind, try_except, time_time, wait_for.
  cbn [value after].
  destruct (Qle_bool _ node_search_timeout).
  - destruct (value (search_documents (search_client self) _ _ w)) as [docs|e] eqn:E.
    + left. eexists. reflexivity.
    + destruct e;
        try (right; right; eexists; reflexivity).
      right; left. eexists. split; [apply timeout_text|reflexivity].
  - cbn [value after]. right; left. eexists.
    split; [apply timeout_text|reflexivity].
Qed.

(** The stage when the search call outlasts the stage budget. *)
Lemma search_stage_late (self : AzureSearchChain) (state : Chain.SearchState)
  (w : World) :
  let call :=
    search_documents (search_client self) (Chain.query state)
      (Chain.top_k state) w in
  (node_search_timeout < now (after call) - now w)%Q ->
  Chain._search_documents self state w
  = mkOutcome (set_now (after call) (now w + node_search_timeout))
      (inl (Chain.set_documents
              (Chain.set_error state
                 (Some ("Node search timed out after "
                        +:+ format_2f (now w + node_search_timeout - now w)
                        +:+ " seconds")))
              [])).
Proof.
  intros call H.
  unfold Chain._search_documents, bind, try_except, time_time, wait_for.
  cbn [value after]. fold call. rewrite (Qle_bool_late _ _ H).
  reflexivity.
Qed.

Lemma route_after_search (state : Chain.SearchState) :
  Chain.next_node Node.search_documents state
  = inr (if truthy_opt (Chain.error state) then Node.handle_error
         else Node.prepare_context).
Proof.
  cbn [Chain.next_node]. unfold Chain._should_continue_after_search.
  destruct (truthy_opt (Chain.error state)); reflexivity.
Qed.

End SearchStage.

Section SearchTimeout.

Context {env : Env}.

(** After a search stage entered without an error, the routing goes to
    [handle_error] exactly when [error] is set. *)
Lemma route_after_search_stage (self : AzureSearchChain)
  (state searched : Chain.SearchState) (w : World) :
  Chain.error state = None ->
  value (Chain._search_documents self state w) = inl searched ->
  (Chain.next_node Node.search_documents searched = inr Node.handle_error
   <-> Chain.error searched <> None)
  /\ (Chain.next_node Node.search_documents searched = inr Node.prepare_context
      <-> Chain.error searched = None).
Proof.
  intros He Hv. rewrite route_after_search.
  destruct (search_stage_outcome self state w)
    as [(docs & H) | [(msg & Hm & H) | (e & H)]];
    rewrite H in Hv; [| |discriminate Hv];
    injection Hv as <-; cbn [Chain.error Chain.set_documents Chain.set_error].
  - rewrite He. cbn. split; split; congruence.
  - destruct msg; [discriminate Hm|]. cbn. split; split; congruence.
Qed.

(** The graph resumed at the search stage, when that stage's budget runs
    out. *)
Lemma invoke_from_search_late (steps : nat) (self : AzureSearchChain)
  (state : Chain.SearchState) (visited : list (Node.t * Chain.SearchState))
  (w : World) :
  let call :=
    search_documents (search_client self) (Chain.query state)
      (Chain.top_k state) w in
  let msg := "Node search timed out after "
             +:+ format_2f (now w + node_search_timeout - now w)
             +:+ " seconds" in
  let searched := Chain.set_documents (Chain.set_error state (Some msg)) [] in
  let final := Chain.set_context searched ("Error: " +:+ msg) in
  (node_search_timeout < now (after call) - now w)%Q ->
  Chain.invoke_from (S (S steps)) self Node.search_documents state visited w
  = mkOutcome (set_now (after call) (now w + node_search_timeout))
      (inl (final,
            visited ++ [ (Node.search_documents, searched);
                         (Node.handle_error, final) ])).
Proof.
  intros call msg searched final H.
  rewrite invoke_from_step by discriminate.
  cbn [Chain.node]. rewrite (search_stage_late self state w H).
  cbn [value after]. rewrite route_after_search. fold msg.
  cbn [Chain.error Chain.set_documents Chain.set_error truthy_opt].
  change (truthy msg) with true. cbv iota.
  rewrite invoke_from_step by discriminate.
  cbn [Chain.node Chain._handle_error ret value after Chain.next_node].
  rewrite invoke_from_END, <- app_assoc. reflexivity.
Qed.

(** C5: when the search call of the [search_documents] node outlasts the
    node's budget of 45, the node returns (it does not raise) a state
    with no documents and an [error] that starts with
    [Node search timed out after]; the routing after the node then
    chooses [handle_error], and the graph resumed at the node runs
    [handle_error] and ends with [context] set to [Error: ] and that
    text.  The routing after the node goes to [handle_error] when
    [error] is truthy and to [prepare_context] otherwise, and for a state
    the node returns after being entered without an error that is:
    exactly when [error] is set. *)
Theorem search_stage_timeout (self : AzureSearchChain)
  (state : Chain.SearchState) (visited : list (Node.t * Chain.SearchState))
  (steps : nat) (w : World) :
  (node_search_timeout
   < now (after (search_documents (search_client self) (Chain.query state)
                   (Chain.top_k state) w)) - now w)%Q ->
  node_search_timeout = 45%Q
  /\ exists searched final msg w',
       Chain._search_documents self state w = mkOutcome w' (inl searched)
       /\ Chain.documents searched = []
       /\ Chain.error searched = Some msg
       /\ startswith "Node search timed out after" msg = true
       /\ Chain.next_node Node.search_documents searched = inr Node.handle_error
       /\ Chain.invoke_from (S (S steps)) self Node.search_documents state
            visited w
          = mkOutcome w'
              (inl (final,
                    visited ++ [ (Node.search_documents, searched);
                                 (Node.handle_error, final) ]))
       /\ Chain.context final = "Error: " +:+ msg
       /\ (forall s,
             Chain.next_node Node.search_documents s
             = inr (if truthy_opt (Chain.error s) then Node.handle_error
                    else Node.prepare_context))
       /\ (forall state1 w1 s1,
             Chain.error state1 = None ->
             value (Chain._search_documents self state1 w1) = inl s1 ->
             (Chain.next_node Node.search_documents s1 = inr Node.handle_error
              <-> Chain.error s1 <> None)
             /\ (Chain.next_node Node.search_documents s1
                 = inr Node.prepare_context
                 <-> Chain.error s1 = None)).
Proof.
  intros H. split; [reflexivity|].
  do 4 eexists.
  split; [exact (search_stage_late self state w H)|].
  split; [reflexivity|]. split; [reflexivity|].
  split; [apply timeout_text|].
  split; [rewrite route_after_search; reflexivity|].
  split; [exact (invoke_from_search_late steps self state visited w H)|].
  split; [reflexivity|].
  split; [exact route_after_search|].
  intros state1 w1 s1. apply route_after_search_stage.
Qed.

End SearchTimeout.

Lemma search_stage_timeout_witness :
  (node_search_timeout
   < now (after (search_documents (search_client Sample.slow_chain)
                   (Chain.query Sample.state) (Chain.top_k Sample.state)
                   Sample.world)) - now Sample.world)%Q
  /\ exists searched w',
       Chain._search_documents (env := Sample.env) Sample.slow_chain Sample.state
         Sample.world
       = mkOutcome w' (inl searched)
       /\ Chain.documents searched = []
       /\ Chain.next_node Node.search_documents searched = inr Node.handle_error.
Proof.
  assert (H : (node_search_timeout
               < now (after (search_documents (search_client Sample.slow_chain)
                               (Chain.query Sample.state) (Chain.top_k Sample.state)
                               Sample.world)) - now Sample.world)%Q)
    by reflexivity.
  split; [exact H|].
  destruct (search_stage_timeout (env := Sample.env) Sample.slow_chain
              Sample.state [] 0 Sample.world H)
    as (_ & searched & final & msg & w' & Hs & Hd & _ & _ & Hn & _).
  exists searched, w'. auto.
Defined.

(** ** The response of a completed run *)

Section Response.

Context {env : Env}.

(** No node clears [error]: it keeps it or sets it to a non-empty text. *)
Lemma node_error (self : AzureSearchChain) (n : Node.t)
  (state state' : Chain.SearchState) (w : World) :
  value (Chain.node self n state w) = inl state' ->
  Chain.error state' = Chain.error state
  \/ truthy_opt (Chain.error state') = true.
Proof.
  destruct n; cbn [Chain.node].
  - rewrite validate_input_spec. cbn [value]. intros [= <-].
    destruct (whitespace_only _); [right; reflexivity|].
    destruct (_ <=? 0); [right|left]; reflexivity.
  - intros Hv.
    destruct (search_stage_outcome self state w)
      as [(docs & H) | [(msg & Hm & H) | (e & H)]];
      rewrite H in Hv; [| |discriminate Hv]; injection Hv as <-.
    + left. reflexivity.
    + right. destruct msg; [discriminate Hm|reflexivity].
  - unfold Chain._prepare_context.
    destruct (Chain.documents state); intros [= <-]; left; reflexivity.
  - unfold Chain._summarize_results. destruct (llm self) as [m|].
    + unfold try_except, bind, await. cbn [value after].
      destruct (answer _); cbn; intros [= <-]. left. reflexivity.
    + intros [= <-]. right. reflexivity.
  - unfold Chain._analyze_results. destruct (llm self) as [m|].
    + unfold try_except, bind, await. cbn [value after].
      destruct (answer _); cbn; intros [= <-]. left. reflexivity.
    + intros [= <-]. right. reflexivity.
  - unfold Chain._format_results_structured. destruct (llm self) as [m|].
    + unfold try_except, bind, await. cbn [value after].
      destruct (answer _); cbn; intros [= <-]; [left|right]; reflexivity.
    + intros [= <-]. left. reflexivity.
  - intros [= <-]. left. reflexivity.
  - intros [= <-]. left. reflexivity.
Qed.

Lemma invoke_from_extends (self : AzureSearchChain) (steps : nat) :
  forall (n : Node.t) (state : Chain.SearchState)
         (visited : list (Node.t * Chain.SearchState)) (w : World)
         (final : Chain.SearchState) (trace : list (Node.t * Chain.SearchState)),
    value (Chain.invoke_from steps self n state visited w) = inl (final, trace) ->
    exists more, trace = visited ++ more /\ (n <> Node.END -> more <> []).
Proof.
  induction steps as [|steps IH]; intros n state visited w final trace Hv.
  - destruct n; try discriminate Hv.
    injection Hv as <- <-. exists []. rewrite app_nil_r. split; congruence.
  - destruct (decide (n = Node.END)) as [->|Hn].
    + rewrite invoke_from_END in Hv. injection Hv as <- <-.
      exists []. rewrite app_nil_r. split; congruence.
    + rewrite invoke_from_step in Hv by exact Hn.
      destruct (value (Chain.node self n state w)) as [state'|e];
        [|discriminate Hv].
      destruct (Chain.next_node n state') as [e|n']; [discriminate Hv|].
      apply IH in Hv as (more & -> & _).
      exists ((n, state') :: more). rewrite <- app_assoc.
      split; [reflexivity|discriminate].
Qed.

Lemma invoke_from_trace_ok (self : AzureSearchChain) (steps : nat) :
  forall (n : Node.t) (state : Chain.SearchState)
         (visited : list (Node.t * Chain.SearchState)) (w : World)
         (final : Chain.SearchState) (trace : list (Node.t * Chain.SearchState)),
    value (Chain.invoke_from steps self n state visited w) = inl (final, trace) ->
    trace_ok visited state ->
    trace_ok trace final.
Proof.
  induction steps as [|steps IH]; intros n state visited w final trace Hv Hok.
  - destruct n; try discriminate Hv.
    injection Hv as <- <-. exact Hok.
  - destruct (decide (n = Node.END)) as [->|Hn].
    + rewrite invoke_from_END in Hv. injection Hv as <- <-. exact Hok.
    + rewrite invoke_from_step in Hv by exact Hn.
      destruct (value (Chain.node self n state w)) as [state'|e] eqn:Hnode;
        [|discriminate Hv].
      destruct (Chain.next_node n state') as [e|n']; [discriminate Hv|].
      apply IH in Hv; [exact Hv|]. clear IH Hv.
      destruct Hok as (Hstate & Hwf & Hmono & _).
      assert (Hstate' : Chain.error state' = None
                        \/ truthy_opt (Chain.error state') = true).
      { destruct (node_error self n state state' w Hnode) as [E|E];
          [rewrite E; exact Hstate|right; exact E]. }
      assert (Hkeep : truthy_opt (Chain.error state) = true ->
                      truthy_opt (Chain.error state') = true).
      { destruct (node_error self n state state' w Hnode) as [E|E];
          [rewrite E; auto|auto]. }
      split; [exact Hstate'|]. split; [|split].
      * intros p Hp. apply elem_of_app in Hp as [Hp|Hp]; [auto|].
        apply list_elem_of_singleton in Hp as ->. exact Hstate'.
      * intros p Hp Ht. apply elem_of_app in Hp as [Hp|Hp]; [eauto|].
        apply list_elem_of_singleton in Hp as ->. exact Ht.
      * right. exists n. apply last_snoc.
Qed.

Lemma initial_trace_ok (query search_type : string) (top_k : Z)
  (output_format : string) :
  trace_ok [] (Chain.initial_state query search_type top_k output_format).
Proof.
  split; [left; reflexivity|]. split; [|split].
  - intros p Hp. inversion Hp.
  - intros p Hp. inversion Hp.
  - left. reflexivity.
Qed.

(** A run that returns has not been cut off: its response is the
    projection of the state the graph ended in. *)
Lemma run_traced_completed (self : AzureSearchChain)
  (query search_type : string) (top_k : Z) (output_format : string)
  (w : World) (response : Chain.Response)
  (trace : list (Node.t * Chain.SearchState)) :
  value (Chain.run_traced self query search_type top_k output_format w)
  = inl (response, trace) ->
  exists final,
    value (Chain.graph_ainvoke self
             (Chain.initial_state query search_type top_k output_format) w)
    = inl (final, trace)
    /\ response = Chain.final_result self final.
Proof.
  unfold Chain.run_traced, bind, try_except, wait_for.
  destruct (Qle_bool _ graph_execution_timeout).
  - destruct (value (Chain.graph_ainvoke self _ w)) as [[final tr]|e] eqn:E.
    + rewrite E. cbn. intros [= <- <-]. exists final. auto.
    + destruct e; cbn; discriminate.
  - cbn [value after]. unfold bind, Chain.sys_stderr, raise. cbn [value].
    discriminate.
Qed.

Lemma graph_ainvoke_unfold (self : AzureSearchChain)
  (init : Chain.SearchState) (w : World) :
  Chain.graph_ainvoke self init w
  = Chain.invoke_from Chain.recursion_limit self Node.validate_input init [] w.
Proof. reflexivity. Qed.

(** The trace of a graph run that returns ends with the final state. *)
Lemma graph_trace (self : AzureSearchChain) (init final : Chain.SearchState)
  (w : World) (trace : list (Node.t * Chain.SearchState)) :
  trace_ok [] init ->
  value (Chain.graph_ainvoke self init w) = inl (final, trace) ->
  trace_ok trace final /\ exists n, last trace = Some (n, final).
Proof.
  rewrite graph_ainvoke_unfold. intros Hinit Hg.
  pose proof (invoke_from_trace_ok self _ _ _ _ _ _ _ Hg Hinit) as Hok.
  split; [exact Hok|].
  apply invoke_from_extends in Hg as (more & Hmore & Hne).
  destruct Hok as (_ & _ & _ & [->|Hlast]); [|exact Hlast].
  symmetry in Hmore. apply app_eq_nil in Hmore as [_ ->].
  exfalso. apply Hne; [discriminate|reflexivity].
Qed.

End Response.

(** C6: for every run that returns a response, [success] is the negation
    of the truth value of the final state's [error]; it is false exactly
    when the final state's [error] is set, and exactly when some node of
    the run returned a state with [error] set; and [used_llm] in the
    response's metadata is [bool(self.llm)], true exactly when a language
    model is configured, whatever the output format and the outcome. *)
Theorem response_projection {env : Env} (self : AzureSearchChain)
  (query search_type : string) (top_k : Z) (output_format : string) (w : World)
  (response : Chain.Response) (trace : list (Node.t * Chain.SearchState)) :
  value (Chain.run_traced self query search_type top_k output_format w)
  = inl (response, trace) ->
  exists n final,
    value (Chain.run self query search_type top_k output_format w) = inl response
    /\ last trace = Some (n, final)
    /\ Chain.response_success response = negb (truthy_opt (Chain.error final))
    /\ (Chain.response_success response = false <-> Chain.error final <> None)
    /\ (Chain.response_success response = false
        <-> exists p, p ∈ trace /\ Chain.error p.2 <> None)
    /\ Chain.response_metadata response !! "used_llm"
       = Some (VBool (Chain.bool_llm self))
    /\ (Chain.bool_llm self = true <-> llm self <> None).
Proof.
  intros Hrun.
  assert (Hr : value (Chain.run self query search_type top_k output_format w)
               = inl response).
  { unfold Chain.run, bind.
    destruct (value (Chain.run_traced self query search_type top_k output_format w))
      as [[r t]|e]; [|discriminate Hrun].
    injection Hrun as -> ->. reflexivity. }
  apply run_traced_completed in Hrun as (final & Hg & ->).
  apply graph_trace in Hg
      as ((Hfinal & Hwf & Hmono & _) & n & Hlast);
    [|apply initial_trace_ok].
  assert (Hset : truthy_opt (Chain.error final) = true <-> Chain.error final <> None).
  { destruct Hfinal as [E|E]; rewrite E; split; try congruence; try discriminate.
    intros _ E'. rewrite E' in E. discriminate E. }
  assert (Hs : Chain.response_success (Chain.final_result self final) = false
               <-> Chain.error final <> None).
  { cbn [Chain.final_result Chain.response_success Chain.set_metadata Chain.error].
    rewrite negb_false_iff. exact Hset. }
  exists n, final.
  split; [exact Hr|]. split; [exact Hlast|]. split; [reflexivity|].
  split; [exact Hs|]. split; [|split].
  - rewrite Hs. split.
    + intros He. exists (n, final). split; [|exact He].
      apply last_Some_elem_of, Hlast.
    + intros (p & Hp & He). apply Hset. apply (Hmono p Hp).
      destruct (Hwf p Hp) as [E|E]; [congruence|exact E].
  - cbn [Chain.final_result Chain.response_metadata Chain.set_metadata
           Chain.metadata].
    rewrite !lookup_insert_ne by discriminate. apply lookup_insert_eq.
  - unfold Chain.bool_llm. destruct (llm self); split; congruence.
Qed.

Lemma response_projection_witness :
  exists response trace,
    value (Chain.run_traced (env := Sample.env) Sample.chain "q" "text" 5
             "structured" Sample.world)
    = inl (response, trace)
    /\ Chain.response_success response
       = negb (truthy_opt (Chain.error (default Sample.state (snd <$> last trace))))
    /\ Chain.response_metadata response !! "used_llm" = Some (VBool false).
Proof.
  assert (H : { rt | value (Chain.run_traced (env := Sample.env) Sample.chain "q"
                              "text" 5 "structured" Sample.world) = inl rt }).
  { eexists. vm_compute. reflexivity. }
  destruct H as [[response trace] Hrun].
  exists response, trace. split; [exact Hrun|].
  destruct (response_projection (env := Sample.env) Sample.chain "q" "text" 5
              "structured" Sample.world response trace Hrun)
    as (n & final & _ & Hlast & Hs & _ & _ & Hm & _).
  rewrite Hlast. split; [exact Hs|exact Hm].
Defined.

(** ** The retrieval client *)

Section RetrievalClient.

Context {env : Env}.

Lemma execute_search_spec (query : string) (w : World)
  (r : Client.AzureAISearchRetriever) :
  Client.retriever (client w) = Some r ->
  AzureSearch._execute_search query w
  = let t := invoke (Client.top_k r) query in
    let log := invocations w ++ [(Client.top_k r, query)] in
    if Qle_bool (duration t) invoke_timeout then
      mkOutcome (mkWorld (client w) log (now w + duration t)) (answer t)
    else
      mkOutcome (mkWorld (client w) log (now w + invoke_timeout)) (inr TimeoutError).
Proof.
  intros Hr.
  unfold AzureSearch._execute_search, try_except, bind, AzureSearch.get_self.
  cbn [value after]. rewrite Hr.
  unfold wait_for, AzureSearch.run_in_executor_invoke, await, set_now.
  cbn [value after now client invocations]. rewrite elapsed_await.
  cbv zeta.
  destruct (Qle_bool _ invoke_timeout).
  - cbn [value after]. destruct (answer _) as [docs|e]; [reflexivity|].
    destruct e; reflexivity.
  - reflexivity.
Qed.

Lemma assign_top_k_spec (k : Z) (w : World) (r : Client.AzureAISearchRetriever) :
  configured (client w) = true ->
  Client.retriever (client w) = Some r ->
  (if bool_decide (Client.top_k r <> k)
   then AzureSearch.set_retriever_top_k k else ret tt) w
  = mkOutcome (mkWorld (with_top_k (client w) k) (invocations w) (now w)) (inl tt).
Proof.
  intros Hc Hr. unfold with_top_k. rewrite Hc, Hr. cbn [option_map].
  destruct (bool_decide (Client.top_k r <> k)) eqn:E.
  - unfold AzureSearch.set_retriever_top_k. rewrite Hr. reflexivity.
  - apply bool_decide_eq_false in E. apply dec_stable in E.
    destruct w as [c inv t0]. destruct c as [ep ak ix r0 ie].
    cbn in *. subst r0. destruct r. cbn in E. subst k. reflexivity.
Qed.

Lemma search_documents_configured (query : string) (k : Z) (w : World) :
  configured (client w) = true ->
  AzureSearch.search_documents query k w
  = let t := invoke k query in
    if Qle_bool (duration t) invoke_timeout then
      mkOutcome (searched_world w query k (now w + duration t))
        match answer t with
        | inl docs => inl docs
        | inr TimeoutError =>
            inr (Exception ("Azure Search timed out after "
                            +:+ format_2f (now w + duration t - now w) +:+ " seconds"))
        | inr e => inr (Exception ("Error searching documents: " +:+ exn_str e))
        end
    else
      mkOutcome (searched_world w query k (now w + invoke_timeout))
        (inr (Exception ("Azure Search timed out after "
                         +:+ format_2f (now w + invoke_timeout - now w) +:+ " seconds"))).
Proof.
  intros Hc. pose proof Hc as Hc'. unfold configured in Hc'.
  apply andb_prop in Hc' as [Herr Hr]. apply negb_true_iff in Herr.
  destruct (Client.retriever (client w)) as [r|] eqn:Er; [|discriminate Hr].
  unfold AzureSearch.search_documents, bind, time_time, AzureSearch.get_self.
  cbn [value after]. rewrite Herr, Er.
  unfold try_except. rewrite (assign_top_k_spec k w r Hc Er).
  cbn [value after]. unfold wait_for.
  erewrite execute_search_spec; cycle 1.
  { cbn [client]. unfold with_top_k. rewrite Hc, Er. reflexivity. }
  cbn [Client.top_k now client invocations]. cbv zeta.
  unfold searched_world.
  destruct (Qle_bool (duration (invoke k query)) invoke_timeout) eqn:Ed.
  - cbn [after now value]. rewrite elapsed_await.
    assert (Qle_bool (duration (invoke k query)) execute_search_timeout = true) as ->.
    { apply Qle_bool_iff. apply Qle_bool_iff in Ed.
      eapply Qle_trans; [exact Ed|]. discriminate. }
    cbn [value after]. destruct (answer (invoke k query)) as [docs|e]; [reflexivity|].
    destruct e; reflexivity.
  - cbn [after now value]. rewrite elapsed_await.
    change (Qle_bool invoke_timeout execute_search_timeout) with true.
    cbn [value after]. reflexivity.
Qed.

Lemma search_documents_unconfigured (query : string) (k : Z) (w : World) :
  configured (client w) = false ->
  exists msg,
    AzureSearch.search_documents query k w = mkOutcome w (inr (Exception msg)).
Proof.
  intros Hc. unfold configured in Hc.
  unfold AzureSearch.search_documents, bind, time_time, AzureSearch.get_self.
  cbn [value after].
  destruct (truthy_opt (Client._init_error (client w))); [eexists; reflexivity|].
  destruct (Client.retriever (client w)); [discriminate Hc|].
  eexists. reflexivity.
Qed.

Lemma with_top_k_unconfigured (c : AzureSearchClient) (k : Z) :
  configured c = false -> with_top_k c k = c.
Proof. intros H. unfold with_top_k. rewrite H. reflexivity. Qed.

Lemma search_documents_client (query : string) (k : Z) (w : World) :
  client (after (AzureSearch.search_documents query k w))
  = with_top_k (client w) k.
Proof.
  destruct (configured (client w)) eqn:Hc.
  - rewrite (search_documents_configured query k w Hc). cbv zeta.
    destruct (Qle_bool _ invoke_timeout); reflexivity.
  - destruct (search_documents_unconfigured query k w Hc) as (msg & ->).
    rewrite with_top_k_unconfigured by exact Hc. reflexivity.
Qed.

End RetrievalClient.

(** C8, as worded, fails: a search asking for three results leaves 3 in
    the [top_k] of the shared retriever, which held 5. *)
Lemma client_untouched_by_search_fails :
  ~ client_untouched_by_search (env := Sample.env).
Proof.
  intros H. specialize (H "q" 3 Sample.world).
  rewrite search_documents_client in H. discriminate H.
Qed.

(** C8, amended: a search writes the [top_k] of the call into the [top_k]
    of the shared retriever, where it stays after the call, and leaves
    every other field of the retriever and of the client as it was; a
    client that is not configured is left as it was. *)
Theorem search_documents_frame {env : Env} (query : string) (k : Z) (w : World) :
  let c := client w in
  let c' := client (after (AzureSearch.search_documents query k w)) in
  c' = with_top_k c k
  /\ Client.endpoint c' = Client.endpoint c
  /\ Client.api_key c' = Client.api_key c
  /\ Client.index_name c' = Client.index_name c
  /\ Client._init_error c' = Client._init_error c
  /\ configured c' = configured c
  /\ match Client.retriever c, Client.retriever c' with
     | Some r, Some r' =>
         Client.service_name r' = Client.service_name r
         /\ Client.retriever_index_name r' = Client.retriever_index_name r
         /\ Client.retriever_api_key r' = Client.retriever_api_key r
         /\ Client.content_key r' = Client.content_key r
         /\ Client.top_k r' = (if configured c then k else Client.top_k r)
     | None, None => True
     | _, _ => False
     end.
Proof.
  intros c c'. subst c'. rewrite search_documents_client. fold c.
  split; [reflexivity|]. unfold with_top_k.
  destruct (configured c) eqn:Hc.
  - unfold configured in *. cbn.
    destruct (Client.retriever c) as [r|]; cbn; [|rewrite andb_false_r in Hc; discriminate].
    rewrite Hc. repeat split; reflexivity.
  - rewrite Hc. destruct (Client.retriever c); repeat split; reflexivity.
Qed.

(** ** ContextIdLookup *)

Section ContextIdLookup.

Context {env : Env}.

Lemma configured_with_top_k (c : AzureSearchClient) (k : Z) :
  configured (with_top_k c k) = configured c.
Proof.
  unfold with_top_k. destruct (configured c) eqn:Hc; [|exact Hc].
  unfold configured in *. cbn.
  destruct (Client.retriever c); [exact Hc|].
  rewrite andb_false_r in Hc. discriminate Hc.
Qed.

(** One id, looked up by a configured client. *)
Lemma get_document_by_id_configured (id : string) (w : World) :
  configured (client w) = true ->
  let o := AzureSearch.get_document_by_id id w in
  match value o with
  | inl doc => doc = resolve_id id
  | inr _ => resolve_id id = None
  end
  /\ invocations (after o) = invocations w ++ [(1, "id:" +:+ id)]
  /\ configured (client (after o)) = true.
Proof.
  intros Hc o. subst o.
  unfold AzureSearch.get_document_by_id, try_except, bind.
  rewrite (search_documents_configured ("id:" +:+ id) 1 w Hc). cbv zeta.
  unfold resolve_id.
  destruct (Qle_bool (duration (invoke 1 ("id:" +:+ id))) invoke_timeout).
  - cbn [value after].
    destruct (answer (invoke 1 ("id:" +:+ id))) as [docs|e].
    + cbn [value after ret]. unfold searched_world. cbn [invocations client].
      rewrite configured_with_top_k. auto.
    + destruct e; cbn [value after raise]; unfold searched_world;
        cbn [invocations client]; rewrite configured_with_top_k; auto.
  - cbn [value after raise]. unfold searched_world. cbn [invocations client].
    rewrite configured_with_top_k. auto.
Qed.

Lemma get_document_by_id_unconfigured (id : string) (w : World) :
  configured (client w) = false ->
  exists msg,
    AzureSearch.get_document_by_id id w = mkOutcome w (inr (Exception msg)).
Proof.
  intros Hc. unfold AzureSearch.get_document_by_id, try_except, bind.
  destruct (search_documents_unconfigured ("id:" +:+ id) 1 w Hc) as (msg & ->).
  cbn [value after raise]. eexists. reflexivity.
Qed.

Lemma bind_inl {A B} (m : Aio A) (k : A -> Aio B) (w : World) (a : A) :
  value (m w) = inl a -> bind m k w = k a (after (m w)).
Proof. intros H. unfold bind. rewrite H. reflexivity. Qed.

(** One turn of the loop of [get_document_context], on a configured
    client: the document the id resolves to, if any, is appended. *)
Lemma lookup_turn_configured (documents : list Document) (id : string)
  (w : World) :
  configured (client w) = true ->
  let o := AzureSearch.get_document_context_turn documents id w in
  value o = inl (documents ++ option_list (resolve_id id))
  /\ invocations (after o) = invocations w ++ [(1, "id:" +:+ id)]
  /\ configured (client (after o)) = true.
Proof.
  intros Hc o. subst o.
  destruct (get_document_by_id_configured id w Hc) as (Hv & Hi & Hc').
  unfold AzureSearch.get_document_context_turn, try_except, bind.
  destruct (value (AzureSearch.get_document_by_id id w)) as [doc|e].
  - subst doc. destruct (resolve_id id) as [d|]; cbn [value after ret option_list];
      rewrite ?app_nil_r; auto.
  - rewrite Hv. cbn [value after ret option_list]. rewrite app_nil_r. auto.
Qed.

Lemma lookup_loop_configured (ids : list string) :
  forall (documents : list Document) (w : World),
    configured (client w) = true ->
    let o := for_each ids AzureSearch.get_document_context_turn documents w in
    value o = inl (documents ++ omap resolve_id ids)
    /\ invocations (after o)
       = invocations w ++ map (fun id => (1, "id:" +:+ id)) ids
    /\ configured (client (after o)) = true.
Proof.
  induction ids as [|id ids IH]; intros documents w Hc; cbv zeta.
  - cbn. rewrite !app_nil_r. auto.
  - cbn [for_each].
    destruct (lookup_turn_configured documents id w Hc) as (Hv & Hi & Hc').
    rewrite (bind_inl _ _ _ _ Hv).
    destruct (IH (documents ++ option_list (resolve_id id)) _ Hc')
      as (IHv & IHi & IHc).
    rewrite IHv, IHi, Hi, <- !app_assoc. cbn [omap list_omap map].
    destruct (resolve_id id); auto.
Qed.

(** The documents a batch of ids resolves to, each id on its own. *)
Lemma get_document_context_configured (ids : list string) (w : World) :
  configured (client w) = true ->
  let o := AzureSearch.get_document_context ids w in
  value o = inl (omap resolve_id ids)
  /\ invocations (after o)
     = invocations w ++ map (fun id => (1, "id:" +:+ id)) ids
  /\ configured (client (after o)) = true.
Proof. intros Hc. exact (lookup_loop_configured ids [] w Hc). Qed.

Lemma lookup_loop_unconfigured (ids : list string) :
  forall (documents : list Document) (w : World),
    configured (client w) = false ->
    for_each ids AzureSearch.get_document_context_turn documents w
    = mkOutcome w (inl documents).
Proof.
  induction ids as [|id ids IH]; intros documents w Hc; [reflexivity|].
  cbn [for_each]. unfold bind at 1.
  unfold AzureSearch.get_document_context_turn at 1 2 3.
  unfold try_except, bind.
  destruct (get_document_by_id_unconfigured id w Hc) as (msg & ->).
  cbn [value after ret]. apply IH, Hc.
Qed.

Lemma get_document_context_unconfigured (ids : list string) (w : World) :
  configured (client w) = false ->
  AzureSearch.get_document_context ids w = mkOutcome w (inl []).
Proof. intros Hc. exact (lookup_loop_unconfigured ids [] w Hc). Qed.



End ContextIdLookup.


(** ** The budgets *)

(** A run whose graph outlasts the budget of [run] is cut off: [run]
    raises, and what it raises is the [NameError] of the handler, which
    names [sys]. *)
Lemma run_cut_off {env : Env} (self : AzureSearchChain)
  (query search_type : string) (top_k : Z) (output_format : string) (w : World) :
  (graph_execution_timeout
   < now (after (Chain.graph_ainvoke self
                   (Chain.initial_state query search_type top_k output_format) w))
     - now w)%Q ->
  value (Chain.run self query search_type top_k output_format w)
  = inr (NameError "sys").
Proof.
  intros H. unfold Chain.run, Chain.run_traced, bind, try_except, wait_for.
  rewrite (Qle_bool_late _ _ H). reflexivity.
Qed.

(** C7: the budgets of the two inner layers and of the search node
    increase outwards (25, 30, 45), but the budget of [run] around the
    whole graph is 25, below the 45 of the node it wraps.  So when the
    search call takes 50, the graph on its own records the node's time-out
    and ends in [handle_error], while [run] is cut off first and raises. *)
Theorem graph_budget_below_stage_budget :
  (invoke_timeout < execute_search_timeout)%Q
  /\ (execute_search_timeout < node_search_timeout)%Q
  /\ (graph_execution_timeout < node_search_timeout)%Q
  /\ ~ (node_search_timeout < graph_execution_timeout)%Q
  /\ (exists final trace,
        value (Chain.graph_ainvoke (env := Sample.env) Sample.slow_chain
                 (Chain.initial_state "x" "text" 5 "structured") Sample.world)
        = inl (final, trace)
        /\ map fst trace
           = [Node.validate_input; Node.search_documents; Node.handle_error]
        /\ Chain.context final
           = "Error: Node search timed out after 45.00 seconds")
  /\ value (Chain.run (env := Sample.env) Sample.slow_chain "x" "text" 5
              "structured" Sample.world)
     = inr (NameError "sys").
Proof.
  split; [reflexivity|]. split; [reflexivity|]. split; [reflexivity|].
  split; [discriminate|]. split.
  - do 2 eexists. split; [vm_compute; reflexivity|]. split; reflexivity.
  - apply run_cut_off. vm_compute. reflexivity.
Qed.

(** ** Further properties of the retrieval client and of the stages *)

Section Documents.

Lemma documents_to_dict_map (docs : list Document) :
  AzureSearch.documents_to_dict docs = map AzureSearch.document_to_dict docs.
Proof.
  assert (H : forall acc : list (gmap string pyval),
             fold_left (fun result doc => result ++ [AzureSearch.document_to_dict doc])
               docs acc
             = acc ++ map AzureSearch.document_to_dict docs).
  { induction docs as [|doc docs IH]; intros acc; cbn [fold_left map].
    - rewrite app_nil_r. reflexivity.
    - rewrite IH, <- app_assoc. reflexivity. }
  unfold AzureSearch.documents_to_dict. rewrite H. reflexivity.
Qed.

(** X1: [documents_to_dict] turns the documents into dictionaries one by
    one and in order; a dictionary holds the metadata of its document
    and, under the key content, the page content, unless the metadata has
    a key content of its own, which then wins. *)
Theorem documents_to_dict_lookup (docs : list Document) :
  AzureSearch.documents_to_dict docs = map AzureSearch.document_to_dict docs
  /\ length (AzureSearch.documents_to_dict docs) = length docs
  /\ forall (doc : Document) (k : string),
       AzureSearch.document_to_dict doc !! k
       = match Client.metadata doc !! k with
         | Some v => Some v
         | None => if String.eqb k "content"
                   then Some (VStr (Client.page_content doc)) else None
         end.
Proof.
  rewrite documents_to_dict_map.
  split; [reflexivity|]. split; [apply length_map|].
  intros doc k. unfold AzureSearch.document_to_dict.
  rewrite lookup_union.
  destruct (Client.metadata doc !! k) as [v|].
  - destruct ({[ "content" := VStr (Client.page_content doc) ]} !! k); reflexivity.
  - destruct (String.eqb k "content") eqn:Ek.
    + apply String.eqb_eq in Ek. subst k. rewrite lookup_singleton_eq. reflexivity.
    + apply String.eqb_neq in Ek. rewrite lookup_singleton_ne by congruence.
      reflexivity.
Qed.

End Documents.

Section StagesAndRun.

Context {env : Env}.

(** X3: [run] lets no exception out but a [NameError] for [sys]: both of
    its handlers write to [sys.stderr] before they raise, so the time-out
    exception of [run] and the exceptions of the graph never reach the
    caller as themselves. *)
Theorem run_raises_name_error_only (self : AzureSearchChain)
  (query search_type : string) (top_k : Z) (output_format : string) (w : World)
  (e : exn) :
  value (Chain.run self query search_type top_k output_format w) = inr e ->
  e = NameError "sys".
Proof.
  unfold Chain.run, Chain.run_traced, bind, try_except, wait_for.
  destruct (Qle_bool _ graph_execution_timeout).
  - destruct (value (Chain.graph_ainvoke self _ w)) as [r|e0] eqn:E.
    + rewrite E. cbn [value after ret]. discriminate.
    + destruct e0; cbn [value after]; unfold Chain.sys_stderr, raise;
        cbn [value after]; congruence.
  - cbn [value after]. unfold Chain.sys_stderr, raise. cbn [value after].
    congruence.
Qed.

Lemma bind_same_clock {A B} (m : Aio A) (k : A -> Aio B) (w : World) :
  (forall a w', now (after (k a w')) = now w') ->
  now (after (bind m k w)) = now (after (m w)).
Proof.
  intros Hk. unfold bind. destruct (value (m w)); [apply Hk|reflexivity].
Qed.

Lemma guarded_within_budget {A} (m : Aio A) (h : exn -> Aio A) (t : Q)
  (w : World) :
  (forall e w', now (after (h e w')) = now w') ->
  (now (after (try_except (wait_for m t) h w)) - now w <= t)%Q.
Proof.
  intros Hh. unfold try_except, wait_for.
  destruct (Qle_bool (now (after (m w)) - now w) t) eqn:Ht.
  - apply Qle_bool_iff in Ht.
    destruct (value (m w)); [exact Ht|]. rewrite Hh. exact Ht.
  - cbn [value after]. rewrite Hh. unfold set_now. cbn [now].
    apply Qle_lteq. right. ring.
Qed.

(** X4: whatever the graph does, [run] is back, with a response or an
    exception, once the clock has advanced by its budget of 25: the
    graph is cut off then. *)
Theorem run_within_budget (self : AzureSearchChain)
  (query search_type : string) (top_k : Z) (output_format : string) (w : World) :
  (now (after (Chain.run self query search_type top_k output_format w)) - now w
   <= graph_execution_timeout)%Q.
Proof.
  unfold Chain.run, Chain.run_traced.
  rewrite !bind_same_clock by reflexivity.
  apply guarded_within_budget. intros e w'. destruct e; reflexivity.
Qed.

End StagesAndRun.

Section ClientCalls.

Context {env : Env}.

(** The search of a client that is not configured. *)
Lemma search_unconfigured_spec (query : string) (k : Z) (w : World) :
  configured (client w) = false ->
  AzureSearch.search_documents query k w
  = mkOutcome w
      (inr (Exception
              (match Client._init_error (client w) with
               | Some err =>
                   if truthy err
                   then "Azure Search not properly configured: " +:+ err
                   else "Azure Search retriever not initialized"
               | None => "Azure Search retriever not initialized"
               end))).
Proof.
  intros Hc. unfold configured in Hc.
  unfold AzureSearch.search_documents, bind, time_time, AzureSearch.get_self.
  cbn [value after].
  destruct (Client._init_error (client w)) as [err|]; cbn [truthy_opt default] in *.
  - destruct (truthy err); [reflexivity|].
    destruct (Client.retriever (client w)); [discriminate Hc|reflexivity].
  - destruct (Client.retriever (client w)); [discriminate Hc|reflexivity].
Qed.

(** X5: a client that is not configured (construction left an error or no
    retriever) fails every search at once, saying that Azure Search is
    not properly configured, followed by the construction error, or that
    the retriever is not initialized; a look-up by id fails with that
    text after [Error retrieving document {id}: ], and a batch of ids
    yields no document.  None of them invokes the retriever or touches
    the world. *)
Theorem unconfigured_client_fails (query : string) (k : Z) (id : string)
  (ids : list string) (w : World) :
  configured (client w) = false ->
  let msg := match Client._init_error (client w) with
             | Some err =>
                 if truthy err
                 then "Azure Search not properly configured: " +:+ err
                 else "Azure Search retriever not initialized"
             | None => "Azure Search retriever not initialized"
             end in
  AzureSearch.search_documents query k w = mkOutcome w (inr (Exception msg))
  /\ AzureSearch.get_document_by_id id w
     = mkOutcome w
         (inr (Exception ("Error retrieving document " +:+ id +:+ ": " +:+ msg)))
  /\ AzureSearch.get_document_context ids w = mkOutcome w (inl []).
Proof.
  intros Hc msg. split; [exact (search_unconfigured_spec query k w Hc)|]. split.
  - unfold AzureSearch.get_document_by_id, try_except, bind.
    rewrite (search_unconfigured_spec ("id:" +:+ id) 1 w Hc). reflexivity.
  - exact (get_document_context_unconfigured ids w Hc).
Qed.

(** X6: [search_documents] returns documents exactly when the client is
    configured and the retriever, invoked with the [top_k] of the call,
    answers with documents within 25; it then returns these documents.
    In every case the clock has advanced by at most 25 when it is back,
    so the budget of 30 around [_execute_search] is never what cuts the
    call off. *)
Theorem search_returns_iff (query : string) (k : Z) (w : World)
  (docs : list Document) :
  (value (AzureSearch.search_documents query k w) = inl docs
   <-> configured (client w) = true
       /\ Qle_bool (duration (invoke k query)) invoke_timeout = true
       /\ answer (invoke k query) = inl docs)
  /\ (now (after (AzureSearch.search_documents query k w)) - now w
      <= invoke_timeout)%Q.
Proof.
  destruct (configured (client w)) eqn:Hc.
  - rewrite (search_documents_configured query k w Hc). cbv zeta.
    destruct (Qle_bool (duration (invoke k query)) invoke_timeout) eqn:Hd.
    + cbn [value after searched_world now]. split.
      * destruct (answer (invoke k query)) as [docs'|e].
        -- split; [intros [= ->]; auto|intros (_ & _ & [= ->]); reflexivity].
        -- split; [destruct e; discriminate|intros (_ & _ & H); discriminate H].
      * apply Qle_bool_iff in Hd.
        apply (Qle_trans _ (duration (invoke k query))); [|exact Hd].
        apply Qle_lteq. right. ring.
    + cbn [value after searched_world now]. split.
      * split; [discriminate|intros (_ & H & _); discriminate H].
      * apply Qle_lteq. right. ring.
  - rewrite (search_unconfigured_spec query k w Hc). cbn [value after]. split.
    + split; [discriminate|intros (H & _); discriminate H].
    + apply (Qle_trans _ 0); [apply Qle_lteq; right; ring|discriminate].
Qed.

(** X7: what [search_documents] raises is always a plain [Exception]
    carrying one of its four messages; a time-out of the retriever is
    reported as such a text, never as [TimeoutError]. *)
Theorem search_raises_wrapped (query : string) (k : Z) (w : World) (e : exn) :
  value (AzureSearch.search_documents query k w) = inr e ->
  exists msg,
    e = Exception msg
    /\ ((exists err, msg = "Azure Search not properly configured: " +:+ err)
        \/ msg = "Azure Search retriever not initialized"
        \/ (exists elapsed,
              msg = "Azure Search timed out after " +:+ elapsed +:+ " seconds")
        \/ (exists detail, msg = "Error searching documents: " +:+ detail)).
Proof.
  destruct (configured (client w)) eqn:Hc.
  - rewrite (search_documents_configured query k w Hc). cbv zeta.
    destruct (Qle_bool (duration (invoke k query)) invoke_timeout).
    + cbn [value]. destruct (answer (invoke k query)) as [docs|e0]; [discriminate|].
      destruct e0; intros [= <-]; eexists; (split; [reflexivity|]);
        [right; right; left|right; right; right..]; eexists; reflexivity.
    + cbn [value]. intros [= <-]. eexists. split; [reflexivity|].
      right; right; left. eexists. reflexivity.
  - rewrite (search_unconfigured_spec query k w Hc). cbn [value].
    intros [= <-]. eexists. split; [reflexivity|].
    destruct (Client._init_error (client w)) as [err|]; [|right; left; reflexivity].
    destruct (truthy err); [left; eexists|right; left]; reflexivity.
Qed.

End ClientCalls.

Lemma unconfigured_client_fails_witness :
  configured (Client.mkClient "" "" "" None (Some "incomplete")) = false
  /\ value (AzureSearch.search_documents (env := Sample.env) "q" 5
              (mkWorld (Client.mkClient "" "" "" None (Some "incomplete")) [] 0))
     = inr (Exception "Azure Search not properly configured: incomplete").
Proof.
  split; [reflexivity|].
  rewrite (proj1 (unconfigured_client_fails (env := Sample.env) "q" 5 "d1" ["d1"]
                    (mkWorld (Client.mkClient "" "" "" None (Some "incomplete")) [] 0)
                    eq_refl)).
  reflexivity.
Defined.

Lemma search_raises_wrapped_witness :
  value (AzureSearch.search_documents (env := Sample.env) "id:bad" 1 Sample.world)
  = inr (Exception "Error searching documents: boom")
  /\ exists msg, Exception "Error searching documents: boom" = Exception msg.
Proof.
  assert (H : value (AzureSearch.search_documents (env := Sample.env) "id:bad" 1
                       Sample.world)
              = inr (Exception "Error searching documents: boom"))
    by (vm_compute; reflexivity).
  split; [exact H|].
  destruct (search_raises_wrapped (env := Sample.env) "id:bad" 1 Sample.world _ H)
    as (msg & Hmsg & _).
  exists msg. exact Hmsg.
Defined.

(** ** Runs that reach the search stage *)

Section SearchingRuns.

Context {env : Env}.

Lemma search_stage_returned (self : AzureSearchChain)
  (state : Chain.SearchState) (w : World) (docs : list Document) :
  let call := search_documents (search_client self) (Chain.query state)
                (Chain.top_k state) w in
  (now (after call) - now w <= node_search_timeout)%Q ->
  value call = inl docs ->
  Chain._search_documents self state w
  = mkOutcome (after call)
      (inl (Chain.set_documents state (AzureSearch.documents_to_dict docs))).
Proof.
  intros call Ht Hv.
  unfold Chain._search_documents, bind, try_except, time_time, wait_for.
  cbn [value after]. fold call.
  apply Qle_bool_iff in Ht. rewrite Ht, Hv. reflexivity.
Qed.

Lemma search_stage_raised (self : AzureSearchChain)
  (state : Chain.SearchState) (w : World) (e : exn) :
  let call := search_documents (search_client self) (Chain.query state)
                (Chain.top_k state) w in
  (now (after call) - now w <= node_search_timeout)%Q ->
  value call = inr e ->
  e <> TimeoutError ->
  Chain._search_documents self state w
  = mkOutcome (after call) (inr (NameError "sys")).
Proof.
  intros call Ht Hv He.
  unfold Chain._search_documents, bind, try_except, time_time, wait_for.
  cbn [value after]. fold call.
  apply Qle_bool_iff in Ht. rewrite Ht, Hv. cbn [value after].
  destruct e; try reflexivity. contradiction.
Qed.

(** A valid request passes [validate_input] unchanged and goes on to the
    search stage. *)
Lemma graph_valid_request (self : AzureSearchChain) (query search_type : string)
  (top_k : Z) (output_format : string) (w : World) :
  let init := Chain.initial_state query search_type top_k output_format in
  whitespace_only query = false ->
  0 < top_k ->
  Chain.graph_ainvoke self init w
  = Chain.invoke_from 24 self Node.search_documents init
      [(Node.validate_input, init)] w.
Proof.
  intros init Hq Hk. unfold Chain.graph_ainvoke, Chain.recursion_limit.
  rewrite invoke_from_step by discriminate.
  cbn [Chain.node]. rewrite validate_input_spec.
  cbn [Chain.initial_state Chain.query Chain.top_k init]. rewrite Hq.
  assert ((top_k <=? 0) = false) as -> by (apply Z.leb_gt; exact Hk).
  cbn [value after]. reflexivity.
Qed.

(** The tail of a run once the search stage has recorded documents, when
    the node chosen after [prepare_context] returns [final]. *)
Lemma invoke_from_searched (steps : nat) (self : AzureSearchChain)
  (state : Chain.SearchState) (visited : list (Node.t * Chain.SearchState))
  (w : World) (docs : list Document) :
  let call := search_documents (search_client self) (Chain.query state)
                (Chain.top_k state) w in
  let searched := Chain.set_documents state (AzureSearch.documents_to_dict docs) in
  let prepared :=
    Chain.set_raw_context searched (ContextBuilder (Chain.documents searched)) in
  (now (after call) - now w <= node_search_timeout)%Q ->
  value call = inl docs ->
  Chain.error state = None ->
  forall (n : Node.t) (final : Chain.SearchState),
    Chain.after_prepare (Chain.output_format state) = Some n ->
    n <> Node.END ->
    Chain.node self n prepared (after call) = mkOutcome (after call) (inl final) ->
    Chain.next_node n final = inr Node.END ->
    Chain.invoke_from (S (S (S steps))) self Node.search_documents state visited w
    = mkOutcome (after call)
        (inl (final,
              visited ++ [ (Node.search_documents, searched);
                           (Node.prepare_context, prepared);
                           (n, final) ])).
Proof.
  intros call searched prepared Ht Hv He n final Hroute Hn Hnode Hend.
  rewrite invoke_from_step by discriminate.
  cbn [Chain.node]. rewrite (search_stage_returned self state w docs Ht Hv).
  fold call searched. cbn [value after]. rewrite route_after_search.
  assert (truthy_opt (Chain.error searched) = false) as ->
      by (unfold searched; cbn [Chain.error Chain.set_documents]; rewrite He;
          reflexivity).
  rewrite invoke_from_step by discriminate.
  cbn [Chain.node]. rewrite prepare_context_spec. fold prepared.
  cbn [value after Chain.next_node]. unfold Chain._route_to_processor.
  assert (Chain.output_format prepared = Chain.output_format state) as ->
      by reflexivity.
  unfold Chain.follow. rewrite Hroute.
  rewrite invoke_from_step by exact Hn.
  rewrite Hnode. cbn [value after]. rewrite Hend.
  rewrite invoke_from_END, <- !app_assoc. reflexivity.
Qed.

(** X2: when the search call returns documents within the node's budget,
    [_search_documents] returns a state whose [documents] are the
    dictionaries of those documents, in order, and whose every other
    field (so [error]) is as it was, in the world as the call left it;
    entered without an error, the routing then goes on to
    [prepare_context]. *)
Theorem search_stage_records_documents (self : AzureSearchChain)
  (state : Chain.SearchState) (w : World) (docs : list Document) :
  let call := search_documents (search_client self) (Chain.query state)
                (Chain.top_k state) w in
  (now (after call) - now w <= node_search_timeout)%Q ->
  value call = inl docs ->
  truthy_opt (Chain.error state) = false ->
  exists state',
    Chain._search_documents self state w = mkOutcome (after call) (inl state')
    /\ Chain.documents state' = map AzureSearch.document_to_dict docs
    /\ Chain.error state' = Chain.error state
    /\ Chain.context state' = Chain.context state
    /\ Chain.raw_context state' = Chain.raw_context state
    /\ same_request state state'
    /\ Chain.next_node Node.search_documents state' = inr Node.prepare_context.
Proof.
  intros call Ht Hv He. eexists. split.
  - exact (search_stage_returned self state w docs Ht Hv).
  - rewrite route_after_search. unfold same_request.
    cbn [Chain.error Chain.documents Chain.context Chain.raw_context
           Chain.query Chain.search_type Chain.top_k Chain.output_format
           Chain.metadata Chain.set_documents].
    rewrite He, documents_to_dict_map. repeat split.
Qed.

Lemma guarded_raises {A} (m : Aio A) (h : exn -> Aio A) (t : Q) (w : World)
  (e x : exn) :
  (forall e' w', h e' w' = mkOutcome w' (inr x)) ->
  value (m w) = inr e ->
  value (try_except (wait_for m t) h w) = inr x.
Proof.
  intros Hh Hv. unfold try_except, wait_for.
  destruct (Qle_bool (now (after (m w)) - now w) t).
  - rewrite Hv, Hh. reflexivity.
  - cbn [value after]. rewrite Hh. reflexivity.
Qed.

Lemma run_handler_raises (e : exn) (w : World) :
  match e with
  | TimeoutError =>
      let! _ := Chain.sys_stderr in
      raise (Exception "Chain graph execution timed out after 25 seconds")
  | e => let! _ := Chain.sys_stderr in raise e
  end w
  = mkOutcome (A := Chain.SearchState * list (Node.t * Chain.SearchState)) w
      (inr (NameError "sys")).
Proof. destruct e; reflexivity. Qed.

(** A run whose graph raises, raises. *)
Lemma run_graph_raised (self : AzureSearchChain) (query search_type : string)
  (top_k : Z) (output_format : string) (w : World) (e : exn) :
  value (Chain.graph_ainvoke self
           (Chain.initial_state query search_type top_k output_format) w)
  = inr e ->
  value (Chain.run self query search_type top_k output_format w)
  = inr (NameError "sys").
Proof.
  intros Hg. unfold Chain.run, Chain.run_traced.
  assert (H : forall {A B C} (m : Aio A) (k : A -> Aio B) (k' : B -> Aio C) x,
             value (m w) = inr x ->
             value (bind (bind m k) k' w) = inr x).
  { intros A B C m k k' x Hm. unfold bind. rewrite Hm. cbn [value].
    reflexivity. }
  apply H. eapply guarded_raises; [exact run_handler_raises|exact Hg].
Qed.

(** X8: when the search call of a valid request raises anything but a
    time-out, no search error is recorded and no response built: the
    handler of the node writes to [sys.stderr], which chain.py never
    imported, so the node raises [NameError], and so does [run]. *)
Theorem search_failure_aborts_run (self : AzureSearchChain)
  (query search_type : string) (top_k : Z) (output_format : string) (w : World)
  (e : exn) :
  let call := search_documents (search_client self) query top_k w in
  whitespace_only query = false ->
  0 < top_k ->
  (now (after call) - now w <= node_search_timeout)%Q ->
  value call = inr e ->
  e <> TimeoutError ->
  Chain._search_documents self
    (Chain.initial_state query search_type top_k output_format) w
  = mkOutcome (after call) (inr (NameError "sys"))
  /\ value (Chain.run self query search_type top_k output_format w)
     = inr (NameError "sys").
Proof.
  intros call Hq Hk Ht Hv He.
  pose proof (search_stage_raised self
                (Chain.initial_state query search_type top_k output_format)
                w e Ht Hv He) as Hstage.
  split; [exact Hstage|].
  apply (run_graph_raised _ _ _ _ _ _ (NameError "sys")).
  rewrite (graph_valid_request self query search_type top_k output_format w Hq Hk).
  rewrite invoke_from_step by discriminate.
  cbn [Chain.node]. rewrite Hstage. reflexivity.
Qed.

(** X9: a chain on a client that is not configured (credentials missing)
    does not answer a valid request with an error response: [run]
    raises [NameError], the retriever is not invoked and the client is
    left as it was. *)
Theorem unconfigured_run_raises (model : option LLM)
  (query search_type : string) (top_k : Z) (output_format : string) (w : World) :
  let self := mkChain azure_search_client model in
  configured (client w) = false ->
  whitespace_only query = false ->
  0 < top_k ->
  value (Chain.run self query search_type top_k output_format w)
  = inr (NameError "sys")
  /\ invocations (after (Chain.run self query search_type top_k output_format w))
     = invocations w
  /\ client (after (Chain.run self query search_type top_k output_format w))
     = client w.
Proof.
  intros self Hc Hq Hk.
  assert (Hcall : search_documents (search_client self) query top_k w
                  = mkOutcome w
                      (inr (Exception
                              match Client._init_error (client w) with
                              | Some err =>
                                  if truthy err
                                  then "Azure Search not properly configured: " +:+ err
                                  else "Azure Search retriever not initialized"
                              | None => "Azure Search retriever not initialized"
                              end))).
  { exact (search_unconfigured_spec query top_k w Hc). }
  assert (Hstage : Chain._search_documents self
                     (Chain.initial_state query search_type top_k output_format) w
                   = mkOutcome w (inr (NameError "sys"))).
  { pose proof (search_stage_raised self
                  (Chain.initial_state query search_type top_k output_format) w)
      as H.
    cbn [Chain.initial_state Chain.query Chain.top_k] in H.
    rewrite Hcall in H. cbn [value after] in H.
    eapply H; [|reflexivity|discriminate].
    apply (Qle_trans _ 0); [apply Qle_lteq; right; ring|discriminate]. }
  assert (Hgraph : Chain.graph_ainvoke self
                     (Chain.initial_state query search_type top_k output_format) w
                   = mkOutcome w (inr (NameError "sys"))).
  { rewrite (graph_valid_request self query search_type top_k output_format w
               Hq Hk).
    rewrite invoke_from_step by discriminate.
    cbn [Chain.node]. rewrite Hstage. reflexivity. }
  assert (Hrun : Chain.run self query search_type top_k output_format w
                 = mkOutcome w (inr (NameError "sys"))).
  { unfold Chain.run, Chain.run_traced, bind, try_except.
    rewrite wait_for_instant;
      [rewrite Hgraph; reflexivity|discriminate|rewrite Hgraph; reflexivity]. }
  rewrite Hrun. auto.
Qed.

End SearchingRuns.

Section CompletedRuns.

Context {env : Env}.

Lemma guarded_returns {A} (m : Aio A) (h : exn -> Aio A) (t : Q) (w w' : World)
  (a : A) :
  m w = mkOutcome w' (inl a) ->
  (now w' - now w <= t)%Q ->
  try_except (wait_for m t) h w = mkOutcome w' (inl a).
Proof.
  intros Hm Ht. unfold try_except, wait_for. rewrite Hm. cbn [after value].
  apply Qle_bool_iff in Ht. rewrite Ht. reflexivity.
Qed.

(** A run of a valid request whose search returns documents in time, and
    whose node after [prepare_context] returns [final]. *)
Lemma run_searched (self : AzureSearchChain) (query search_type : string)
  (top_k : Z) (output_format : string) (w : World) (docs : list Document)
  (n : Node.t) (final : Chain.SearchState) :
  let call := search_documents (search_client self) query top_k w in
  let init := Chain.initial_state query search_type top_k output_format in
  let searched := Chain.set_documents init (AzureSearch.documents_to_dict docs) in
  let prepared :=
    Chain.set_raw_context searched (ContextBuilder (Chain.documents searched)) in
  whitespace_only query = false ->
  0 < top_k ->
  (now (after call) - now w <= graph_execution_timeout)%Q ->
  value call = inl docs ->
  Chain.after_prepare output_format = Some n ->
  n <> Node.END ->
  Chain.node self n prepared (after call) = mkOutcome (after call) (inl final) ->
  Chain.next_node n final = inr Node.END ->
  Chain.run_traced self query search_type top_k output_format w
  = mkOutcome (after call)
      (inl (Chain.final_result self final,
            [ (Node.validate_input, init); (Node.search_documents, searched);
              (Node.prepare_context, prepared); (n, final) ])).
Proof.
  intros call init searched prepared Hq Hk Ht Hv Hroute Hn Hnode Hend.
  assert (Hgraph : Chain.graph_ainvoke self init w
                   = mkOutcome (after call)
                       (inl (final,
                             [ (Node.validate_input, init);
                               (Node.search_documents, searched);
                               (Node.prepare_context, prepared); (n, final) ]))).
  { unfold init.
    rewrite (graph_valid_request self query search_type top_k output_format w
               Hq Hk).
    apply (invoke_from_searched 21 self
             (Chain.initial_state query search_type top_k output_format)
             [(Node.validate_input,
               Chain.initial_state query search_type top_k output_format)]
             w docs); try assumption; try reflexivity.
    apply (Qle_trans _ graph_execution_timeout); [exact Ht|discriminate]. }
  unfold Chain.run_traced, bind. fold init.
  rewrite (guarded_returns _ _ _ w _ _ Hgraph Ht). reflexivity.
Qed.

(** X10: without a language model, a valid request for the structured
    format whose search returns documents within the budget of [run]
    gets a successful response: its text is [Found N documents.], a
    blank line and the context built from the dictionaries of the
    documents, its documents are these dictionaries in order, and
    [total_results] is N.  The run goes through the four nodes
    validate_input, search_documents, prepare_context and
    format_structured. *)
Theorem structured_run_without_model (self : AzureSearchChain)
  (query search_type : string) (top_k : Z) (w : World) (docs : list Document) :
  let call := search_documents (search_client self) query top_k w in
  llm self = None ->
  whitespace_only query = false ->
  0 < top_k ->
  (now (after call) - now w <= graph_execution_timeout)%Q ->
  value call = inl docs ->
  exists response trace,
    Chain.run_traced self query search_type top_k "structured" w
    = mkOutcome (after call) (inl (response, trace))
    /\ map fst trace
       = [ Node.validate_input; Node.search_documents; Node.prepare_context;
           Node.format_structured ]
    /\ Chain.response_success response = true
    /\ Chain.response_documents response = map AzureSearch.document_to_dict docs
    /\ Chain.response_context response
       = "Found " +:+ pretty (length docs) +:+ " documents." +:+ nl +:+ nl
         +:+ ContextBuilder (map AzureSearch.document_to_dict docs)
    /\ Chain.response_metadata response !! "total_results"
       = Some (VInt (Z.of_nat (length docs))).
Proof.
  intros call Hllm Hq Hk Ht Hv.
  do 2 eexists. split.
  - apply (run_searched self query search_type top_k "structured" w docs
             Node.format_structured); try assumption; try reflexivity;
      try discriminate.
    cbn [Chain.node]. unfold Chain._format_results_structured.
    rewrite Hllm. reflexivity.
  - cbn [map fst Chain.final_result Chain.response_success
           Chain.response_documents Chain.response_context
           Chain.response_metadata Chain.set_metadata Chain.set_context
           Chain.set_raw_context Chain.set_documents Chain.initial_state
           Chain.documents Chain.context Chain.raw_context Chain.error
           Chain.metadata truthy_opt negb].
    rewrite documents_to_dict_map, length_map.
    repeat (split; [reflexivity|]).
    apply lookup_insert_eq.
Qed.

(** X11: without a language model, a valid request for the summary or the
    analysis format whose search returns documents in time gets a
    response with [success] false and an empty text: the stage sets
    [error] after the routing, so [handle_error] is not run and the
    reason is not in the response, whose documents are those found. *)
Theorem model_format_without_model (self : AzureSearchChain)
  (query search_type : string) (top_k : Z) (output_format : string) (w : World)
  (docs : list Document) :
  let call := search_documents (search_client self) query top_k w in
  llm self = None ->
  output_format = "summary" \/ output_format = "analysis" ->
  whitespace_only query = false ->
  0 < top_k ->
  (now (after call) - now w <= graph_execution_timeout)%Q ->
  value call = inl docs ->
  exists response trace final,
    Chain.run_traced self query search_type top_k output_format w
    = mkOutcome (after call) (inl (response, trace))
    /\ last trace
       = Some (if String.eqb output_format "summary"
               then Node.summarize_results else Node.analyze_results, final)
    /\ ~ In Node.handle_error (map fst trace)
    /\ Chain.error final
       = Some (if String.eqb output_format "summary"
               then "Summarizer chain is not available (LLM not configured)."
               else "Analyzer chain is not available (LLM not configured).")
    /\ Chain.response_success response = false
    /\ Chain.response_context response = ""
    /\ Chain.response_documents response = map AzureSearch.document_to_dict docs.
Proof.
  intros call Hllm Hfmt Hq Hk Ht Hv.
  destruct Hfmt as [-> | ->]; do 3 eexists; (split; [|split; [|split; [|split]]]).
  - apply (run_searched self query search_type top_k "summary" w docs
             Node.summarize_results); try assumption; try reflexivity;
      try discriminate.
    cbn [Chain.node]. unfold Chain._summarize_results. rewrite Hllm. reflexivity.
  - reflexivity.
  - cbn [map fst In]. intros [H | [H | [H | [H | []]]]]; discriminate H.
  - reflexivity.
  - rewrite <- documents_to_dict_map. repeat split; reflexivity.
  - apply (run_searched self query search_type top_k "analysis" w docs
             Node.analyze_results); try assumption; try reflexivity;
      try discriminate.
    cbn [Chain.node]. unfold Chain._analyze_results. rewrite Hllm. reflexivity.
  - reflexivity.
  - cbn [map fst In]. intros [H | [H | [H | [H | []]]]]; discriminate H.
  - reflexivity.
  - rewrite <- documents_to_dict_map. repeat split; reflexivity.
Qed.

End CompletedRuns.

Section SharedRetriever.

Context {env : Env}.

Lemma search_elapsed (query : string) (k : Z) (w : World) :
  (now (after (AzureSearch.search_documents query k w)) - now w
   <= invoke_timeout)%Q.
Proof.
  destruct (configured (client w)) eqn:Hc.
  - rewrite (search_documents_configured query k w Hc). cbv zeta.
    destruct (Qle_bool (duration (invoke k query)) invoke_timeout) eqn:Hd;
      cbn [after searched_world now].
    + apply Qle_bool_iff in Hd.
      apply (Qle_trans _ (duration (invoke k query))); [|exact Hd].
      apply Qle_lteq. right. ring.
    + apply Qle_lteq. right. ring.
  - rewrite (search_unconfigured_spec query k w Hc). cbn [after].
    apply (Qle_trans _ 0); [apply Qle_lteq; right; ring|discriminate].
Qed.

Lemma search_no_timeout_error (query : string) (k : Z) (w : World) :
  value (AzureSearch.search_documents query k w) <> inr TimeoutError.
Proof.
  destruct (configured (client w)) eqn:Hc.
  - rewrite (search_documents_configured query k w Hc). cbv zeta.
    destruct (Qle_bool (duration (invoke k query)) invoke_timeout);
      cbn [value]; [|discriminate].
    destruct (answer (invoke k query)) as [docs|e]; [discriminate|].
    destruct e; discriminate.
  - rewrite (search_unconfigured_spec query k w Hc). discriminate.
Qed.

(** X12: on the client of azure_search.py the search node never records
    an error: the client is back within 25, well inside the node's 45,
    and turns every failure, its own time-out included, into a plain
    exception; so the node either stores the dictionaries of the
    documents found or raises [NameError], and its time-out branch is
    not taken. *)
Theorem client_search_stage (model : option LLM) (state : Chain.SearchState)
  (w : World) :
  let self := mkChain azure_search_client model in
  (exists docs,
      value (AzureSearch.search_documents (Chain.query state)
               (Chain.top_k state) w) = inl docs
      /\ value (Chain._search_documents self state w)
         = inl (Chain.set_documents state (map AzureSearch.document_to_dict docs)))
  \/ value (Chain._search_documents self state w) = inr (NameError "sys").
Proof.
  intros self.
  assert (Ht : (now (after (search_documents (search_client self)
                              (Chain.query state) (Chain.top_k state) w))
                - now w <= node_search_timeout)%Q).
  { apply (Qle_trans _ invoke_timeout); [apply search_elapsed|discriminate]. }
  destruct (value (search_documents (search_client self) (Chain.query state)
                     (Chain.top_k state) w)) as [docs|e] eqn:Hv.
  - left. exists docs. split; [exact Hv|].
    rewrite (search_stage_returned self state w docs Ht Hv).
    rewrite documents_to_dict_map. reflexivity.
  - right. rewrite (search_stage_raised self state w e Ht Hv); [reflexivity|].
    intros ->. exact (search_no_timeout_error _ _ _ Hv).
Qed.

Lemma with_top_k_twice (c : AzureSearchClient) (k k' : Z) :
  with_top_k (with_top_k c k) k' = with_top_k c k'.
Proof.
  destruct c as [ep ak ix [r|] ie]; unfold with_top_k, configured; cbn;
    destruct (truthy_opt ie) eqn:E; cbn; rewrite ?E; reflexivity.
Qed.

Lemma lookup_loop_client (ids : list string) :
  forall (documents : list Document) (w : World),
    configured (client w) = true ->
    client (after (for_each ids AzureSearch.get_document_context_turn documents w))
    = match ids with
      | [] => client w
      | _ :: _ => with_top_k (client w) 1
      end.
Proof.
  induction ids as [|id ids IH]; intros documents w Hc; [reflexivity|].
  cbn [for_each].
  destruct (lookup_turn_configured documents id w Hc) as (Hv & _ & Hc').
  rewrite (bind_inl _ _ _ _ Hv), (IH _ _ Hc').
  assert (Hturn : client (after (AzureSearch.get_document_context_turn documents
                                   id w))
                  = with_top_k (client w) 1).
  { unfold AzureSearch.get_document_context_turn, AzureSearch.get_document_by_id,
      try_except, bind.
    rewrite (search_documents_configured ("id:" +:+ id) 1 w Hc). cbv zeta.
    destruct (Qle_bool (duration (invoke 1 ("id:" +:+ id))) invoke_timeout);
      cbn [value after]; [|reflexivity].
    destruct (answer (invoke 1 ("id:" +:+ id))) as [docs|e]; cbn [value after].
    - destruct (head docs); reflexivity.
    - destruct e; reflexivity. }
  rewrite Hturn. destruct ids; [reflexivity|apply with_top_k_twice].
Qed.

(** X13: a look-up of at least one id on a configured client leaves 1 in
    the [top_k] of the shared retriever, whatever it held: each id is
    searched with one result asked for, and nothing puts the former
    value back.  Every other field of the client stays as it was. *)
Theorem lookup_leaves_top_k_one (model : option LLM) (document_ids : string)
  (w : World) :
  let self := mkChain azure_search_client model in
  configured (client w) = true ->
  ids_of document_ids <> [] ->
  client (after (Chain.get_document_context_tool self document_ids w))
  = with_top_k (client w) 1
  /\ (Client.top_k <$> Client.retriever
        (client (after (Chain.get_document_context_tool self document_ids w))))
     = Some 1.
Proof.
  intros self Hc Hids.
  assert (H : client (after (Chain.get_document_context_tool self document_ids w))
              = with_top_k (client w) 1).
  { unfold Chain.get_document_context_tool, try_except.
    fold (ids_of document_ids).
    destruct (ids_of document_ids) as [|id ids]; [contradiction|].
    cbn [search_client self get_document_context azure_search_client].
    destruct (get_document_context_configured (id :: ids) w Hc) as (Hv & _).
    rewrite (bind_inl _ _ _ _ Hv).
    assert (Hcl : client (after (AzureSearch.get_document_context (id :: ids) w))
                  = with_top_k (client w) 1)
      by exact (lookup_loop_client (id :: ids) [] w Hc).
    destruct (omap resolve_id (id :: ids)); cbn [value after ret]; exact Hcl. }
  split; [exact H|]. rewrite H. unfold with_top_k. rewrite Hc.
  unfold configured in Hc. cbn.
  destruct (Client.retriever (client w));
    [reflexivity|rewrite andb_false_r in Hc; discriminate Hc].
Qed.

End SharedRetriever.

Section IdLists.

Lemma rstrip_idempotent (s : string) : rstrip (rstrip s) = rstrip s.
Proof.
  induction s as [|c s IH]; [reflexivity|]. cbn [rstrip].
  destruct (rstrip s) as [|a r] eqn:E.
  - destruct (isspace c) eqn:Ec; [reflexivity|]. cbn [rstrip]. rewrite Ec.
    reflexivity.
  - cbn [rstrip]. cbn [rstrip] in IH. rewrite IH. reflexivity.
Qed.

Lemma lstrip_head (s : string) :
  lstrip s = EmptyString
  \/ exists c r, lstrip s = String c r /\ isspace c = false.
Proof.
  induction s as [|c s IH]; [left; reflexivity|]. cbn [lstrip].
  destruct (isspace c) eqn:Ec; [exact IH|]. right. exists c, s. auto.
Qed.

Lemma rstrip_head (c : ascii) (r : string) :
  isspace c = false -> exists r', rstrip (String c r) = String c r'.
Proof.
  intros Hc. cbn [rstrip]. destruct (rstrip r); [rewrite Hc|]; eexists; reflexivity.
Qed.

Lemma strip_idempotent (s : string) : strip (strip s) = strip s.
Proof.
  unfold strip. destruct (lstrip_head s) as [E | (c & r & E & Hc)]; rewrite E.
  - reflexivity.
  - destruct (rstrip_head c r Hc) as (r' & Er). rewrite Er. cbn [lstrip].
    rewrite Hc, <- Er. apply rstrip_idempotent.
Qed.

Lemma occurs_lstrip (c : ascii) (s : string) :
  occurs c s = false -> occurs c (lstrip s) = false.
Proof.
  induction s as [|a s IH]; [reflexivity|]. cbn [lstrip occurs].
  intros H. apply orb_false_elim in H as [Ha Hs].
  destruct (isspace a); [auto|]. cbn [occurs]. rewrite Ha, Hs. reflexivity.
Qed.

Lemma occurs_rstrip (c : ascii) (s : string) :
  occurs c s = false -> occurs c (rstrip s) = false.
Proof.
  induction s as [|a s IH]; [reflexivity|]. cbn [rstrip occurs].
  intros H. apply orb_false_elim in H as [Ha Hs]. specialize (IH Hs).
  destruct (rstrip s).
  - destruct (isspace a); [reflexivity|]. cbn [occurs]. rewrite Ha. reflexivity.
  - cbn [occurs] in *. rewrite Ha, IH. reflexivity.
Qed.

Lemma split_pieces (sep : ascii) (s : string) :
  Forall (fun piece => occurs sep piece = false) (split sep s).
Proof.
  induction s as [|a s IH]; cbn [split].
  - constructor; [reflexivity|constructor].
  - destruct (Ascii.eqb a sep) eqn:E.
    + constructor; [reflexivity|exact IH].
    + destruct (split sep s) as [|piece pieces].
      * constructor; [cbn [occurs]; rewrite E; reflexivity|constructor].
      * inversion IH as [|? ? Hp Hps]; subst. constructor; [|exact Hps].
        cbn [occurs]. rewrite E, Hp. reflexivity.
Qed.

(** X14: the ids [get_document_context_tool] takes from the
    comma-separated list are never empty, carry no whitespace at either
    end (trimming them again changes nothing) and contain no comma. *)
Theorem ids_trimmed (document_ids id : string) :
  In id (ids_of document_ids) ->
  truthy id = true /\ strip id = id /\ occurs "," id = false.
Proof.
  unfold ids_of. intros H. apply in_map_iff in H as (piece & <- & H).
  apply List.filter_In in H as [Hin Ht].
  split; [exact Ht|]. split; [apply strip_idempotent|].
  unfold strip. apply occurs_rstrip, occurs_lstrip.
  pose proof (split_pieces "," document_ids) as Hall.
  rewrite List.Forall_forall in Hall. exact (Hall piece Hin).
Qed.

End IdLists.

Lemma ids_trimmed_witness :
  In "bad" (ids_of "d1, bad ,,zz")
  /\ truthy "bad" = true /\ strip "bad" = "bad" /\ occurs "," "bad" = false.
Proof.
  assert (H : In "bad" (ids_of "d1, bad ,,zz")) by (right; left; reflexivity).
  split; [exact H|]. exact (ids_trimmed "d1, bad ,,zz" "bad" H).
Defined.

(** ** The construction of the client *)

Section ServiceName.

Lemma prefix_nil (s : string) : String.prefix EmptyString s = true.
Proof. destruct s; reflexivity. Qed.

Lemma split_on_cons (sep s : string) (k : nat) :
  exists p ps, ClientInit.split_on sep s k = p :: ps.
Proof.
  revert k. induction s as [|c s IH]; intros k; cbn [ClientInit.split_on].
  - eauto.
  - destruct k as [|k]; [|apply IH].
    destruct (startswith sep (String c s)); [eauto|].
    destruct (IH 0%nat) as (p & ps & ->). eauto.
Qed.

Lemma not_slash (a : ascii) (s : string) :
  Ascii.eqb a "/" = false -> startswith "//" (String a s) = false.
Proof.
  intros H. unfold startswith. cbn [String.prefix].
  destruct (ascii_dec "/" a) as [<-|_]; [discriminate H|reflexivity].
Qed.

Lemma split_on_name (name rest : string) :
  occurs "/" name = false ->
  exists p ps,
    ClientInit.split_on "//" (name +:+ String "." rest) 0 = (name +:+ String "." p) :: ps.
Proof.
  induction name as [|a name IH]; cbn [occurs]; intros H.
  - change (EmptyString +:+ String "." rest) with (String "." rest).
    change (ClientInit.split_on "//" (String "." rest) 0)
      with (if startswith "//" (String "." rest)
            then EmptyString :: ClientInit.split_on "//" rest 1
            else match ClientInit.split_on "//" rest 0 with
                 | p :: ps => String "." p :: ps
                 | [] => [String "." EmptyString]
                 end).
    rewrite not_slash by reflexivity.
    destruct (split_on_cons "//" rest 0) as (p & ps & ->). exists p, ps. reflexivity.
  - apply orb_false_elim in H as [Ha Hn].
    change (ClientInit.split_on "//" (String a name +:+ String "." rest) 0)
      with (if startswith "//" (String a (name +:+ String "." rest))
            then EmptyString :: ClientInit.split_on "//" (name +:+ String "." rest) 1
            else match ClientInit.split_on "//" (name +:+ String "." rest) 0 with
                 | p :: ps => String a p :: ps
                 | [] => [String a EmptyString]
                 end).
    rewrite (not_slash a _ Ha).
    destruct (IH Hn) as (p & ps & ->). exists p, ps. reflexivity.
Qed.

Lemma split_on_https (u : string) :
  ClientInit.split_on "//" ("https://" +:+ u) 0
  = "https:" :: ClientInit.split_on "//" u 0.
Proof.
  change ("https://" +:+ u)
    with (String "h" (String "t" (String "t" (String "p" (String "s"
           (String ":" (String "/" (String "/" u)))))))).
  do 6 (cbn [ClientInit.split_on]; rewrite not_slash by reflexivity).
  cbn [ClientInit.split_on]. unfold startswith at 1. cbn [String.prefix].
  destruct (ascii_dec "/" "/") as [_|n]; [|contradiction].
  rewrite prefix_nil. cbn [String.length Nat.sub ClientInit.split_on].
  destruct (split_on_cons "//" u 0) as (p & ps & ->). reflexivity.
Qed.

Lemma split_dot_name (name rest : string) :
  occurs "." name = false ->
  split "." (name +:+ String "." rest) = name :: split "." rest.
Proof.
  induction name as [|a name IH]; cbn [occurs]; intros H.
  - reflexivity.
  - apply orb_false_elim in H as [Ha Hn].
    change (split "." (String a name +:+ String "." rest))
      with (if Ascii.eqb a "." then EmptyString :: split "." (name +:+ String "." rest)
            else match split "." (name +:+ String "." rest) with
                 | p :: ps => String a p :: ps
                 | [] => [String a EmptyString]
                 end).
    rewrite Ha, (IH Hn). reflexivity.
Qed.

Lemma startswith_https (u : string) : startswith "https://" ("https://" +:+ u) = true.
Proof.
  change ("https://" +:+ u)
    with (String "h" (String "t" (String "t" (String "p" (String "s"
           (String ":" (String "/" (String "/" u)))))))).
  unfold startswith. cbn [String.prefix].
  repeat match goal with
         | |- context [ascii_dec ?a ?a] =>
             destruct (ascii_dec a a) as [_|n]; [|contradiction]
         end.
  apply prefix_nil.
Qed.

(** X15: from an endpoint [https://{name}.{rest}] whose name has no dot
    and no slash, [_extract_service_name] returns the name, whatever
    follows the first dot. *)
Theorem extract_service_name (name rest : string) :
  occurs "." name = false ->
  occurs "/" name = false ->
  ClientInit._extract_service_name ("https://" +:+ name +:+ String "." rest)
  = inl name.
Proof.
  intros Hdot Hslash. unfold ClientInit._extract_service_name.
  rewrite startswith_https, split_on_https.
  destruct (split_on_name name rest Hslash) as (p & ps & ->).
  cbn [nth_error]. rewrite (split_dot_name name p Hdot). reflexivity.
Qed.

Lemma missing_vars_none (endpoint api_key index_name : string) :
  ClientInit.missing_vars endpoint api_key index_name = []
  <-> truthy endpoint && truthy api_key && truthy index_name = true.
Proof.
  unfold ClientInit.missing_vars.
  destruct (truthy endpoint), (truthy api_key), (truthy index_name); cbn;
    split; congruence.
Qed.

(** X16: [AzureSearchClient.__init__] leaves either a retriever or an
    error text, never both and never neither, so the client is
    configured exactly when it has a retriever; a retriever it leaves
    asks for 5 results, reads the content from the field content and
    carries the index name, the key and the service name taken from the
    endpoint; and when a setting is empty there is no retriever and the
    error text lists the names of the empty settings. *)
Theorem client_init_outcome (validate : Client.AzureAISearchRetriever -> option exn)
  (endpoint api_key index_name : string) :
  let c := ClientInit.__init__ validate endpoint api_key index_name in
  (Client.retriever c = None <-> Client._init_error c <> None)
  /\ (configured c = true <-> Client.retriever c <> None)
  /\ (forall r,
        Client.retriever c = Some r ->
        Client.top_k r = 5
        /\ Client.content_key r = "content"
        /\ Client.retriever_index_name r = index_name
        /\ Client.retriever_api_key r = api_key
        /\ ClientInit._extract_service_name endpoint = inl (Client.service_name r)
        /\ validate r = None)
  /\ (ClientInit.missing_vars endpoint api_key index_name <> [] ->
      Client.retriever c = None
      /\ Client._init_error c
         = Some ("Azure Search configuration is incomplete. "
                 +:+ "Missing environment variables: "
                 +:+ join ", " (ClientInit.missing_vars endpoint api_key index_name))).
Proof.
  intros c. subst c. unfold ClientInit.__init__, configured.
  pose proof (missing_vars_none endpoint api_key index_name) as Hm.
  assert (Hlit : forall a s t, truthy (String a s +:+ t) = true)
    by reflexivity.
  destruct (truthy endpoint && truthy api_key && truthy index_name) eqn:Hall;
    cbn [negb];
    [destruct (ClientInit._extract_service_name endpoint) as [name|e] eqn:Hname;
     [destruct (validate _) as [e|] eqn:Hval|]|];
    cbn [Client.retriever Client._init_error truthy_opt];
    rewrite ?Hlit; cbn [negb andb];
    (split; [split; intros; congruence|]);
    (split; [split; intros; congruence|]);
    (split; [intros r Hr; try discriminate Hr|]).
  - intros H. exfalso. apply H, Hm. reflexivity.
  - injection Hr as <-. repeat (split; [reflexivity|]). exact Hval.
  - intros H. exfalso. apply H, Hm. reflexivity.
  - intros H. exfalso. apply H, Hm. reflexivity.
  - intros _. split; reflexivity.
Qed.

End ServiceName.

Lemma extract_service_name_witness :
  occurs "." "svc" = false
  /\ occurs "/" "svc" = false
  /\ ClientInit._extract_service_name "https://svc.search.windows.net" = inl "svc".
Proof.
  split; [reflexivity|]. split; [reflexivity|].
  exact (extract_service_name "svc" "search.windows.net" eq_refl eq_refl).
Defined.

(** ** The tool calls of the server

    A look-up of several ids that the budget of the tool call cuts off has
    not made the searches still to come; [wait_for] gives the world of the
    whole call, so nothing is stated below about a call cut off. *)

Section ToolCalls.

Context {env : Env}.

Lemma try_except_reraise {A} (m : Aio A) (w : World) :
  try_except m (fun e => raise e) w = m w.
Proof.
  unfold try_except, raise. destruct (m w) as [w' [a|e]]; reflexivity.
Qed.

(** A tool call that is back within the budget of 30. *)
Lemma handle_call_in_time (self : Server.AzureSearchMCPServer) (name : string)
  (arguments : Server.Arguments) (w : World) (m : Aio string) :
  Server._execute_tool self name arguments w = m w ->
  (now (after (m w)) - now w <= Server.tool_call_timeout)%Q ->
  value (m w) <> inr TimeoutError ->
  Server.handle_call_tool self name arguments w
  = mkOutcome (after (m w))
      (inl match value (m w) with
           | inl text => text
           | inr e => "Error: Tool call failed: " +:+ exn_str e
           end).
Proof.
  intros Hm Ht Hv.
  unfold Server.handle_call_tool, bind, time_time, try_except, wait_for.
  cbn [value after]. rewrite Hm. apply Qle_bool_iff in Ht. rewrite Ht.
  destruct (m w) as [w' [text|e]]; cbn [value after] in *; [reflexivity|].
  destruct e; try reflexivity. contradiction.
Qed.

Lemma search_tool_branch (self : Server.AzureSearchMCPServer) (name : string)
  (arguments : Server.Arguments) (w : World) :
  In name search_tool_names ->
  Server._execute_tool self name arguments w
  = Server.search_tool self arguments (format_of name arguments) w.
Proof.
  intros Hn. unfold Server._execute_tool. rewrite try_except_reraise.
  unfold format_of.
  destruct Hn as [<- | [<- | [<- | []]]]; reflexivity.
Qed.

Lemma check_configuration_clean_aux (config : Server.Config) :
  Server._check_configuration config = [] -> complete config = true.
Proof.
  unfold Server._check_configuration, complete, ClientInit.missing_vars.
  destruct (truthy (Server.azure_search_endpoint config)),
    (truthy (Server.azure_search_api_key config)),
    (truthy (Server.azure_search_index_name config)),
    (truthy (Server.gemini_api_key config)); cbn; congruence.
Qed.

(** X17: [_check_configuration] records no warning exactly when the three
    Azure Search settings and the Gemini key are all there. *)
Theorem check_configuration_clean (config : Server.Config) :
  Server._check_configuration config = [] <-> complete config = true.
Proof.
  unfold Server._check_configuration, complete, ClientInit.missing_vars.
  destruct (truthy (Server.azure_search_endpoint config)),
    (truthy (Server.azure_search_api_key config)),
    (truthy (Server.azure_search_index_name config)),
    (truthy (Server.gemini_api_key config)); cbn; split; congruence.
Qed.

(** X18: when a setting is missing, the Gemini key as much as an Azure
    Search setting, a server built from the configuration answers each of
    the three search tools with the text that search is disabled,
    listing its warnings: the chain is not run and the world is
    untouched, whatever the arguments.  In particular a chain without a
    language model is never run by a search tool. *)
Theorem search_tools_disabled (config : Server.Config) (sc : SearchClient)
  (model : LLM) (name : string) (arguments : Server.Arguments) (w : World) :
  let self := Server.__init__ config sc model in
  complete config = false ->
  In name search_tool_names ->
  Server.handle_call_tool self name arguments w
  = mkOutcome w (inl (Server.disabled_text (Server._check_configuration config)))
  /\ Server._check_configuration config <> []
  /\ (llm (Server.search_chain self) = None ->
      In "Gemini API key not found. LLM-based formatting will be disabled."
        (Server._check_configuration config)).
Proof.
  intros self Hc Hn.
  assert (Hw : Server._check_configuration config <> []).
  { intros H. apply check_configuration_clean_aux in H. congruence. }
  assert (Hexec : Server._execute_tool self name arguments w
                  = ret (Server.disabled_text (Server._check_configuration config)) w).
  { rewrite (search_tool_branch self name arguments w Hn).
    unfold Server.search_tool. cbn [Server._init_warnings self Server.__init__].
    destruct (Server._check_configuration config); [contradiction|reflexivity]. }
  split; [|split; [exact Hw|]].
  - rewrite (handle_call_in_time self name arguments w _ Hexec);
      [reflexivity| |discriminate].
    cbn [ret after]. apply (Qle_trans _ 0); [apply Qle_lteq; right; ring|].
    discriminate.
  - cbn [self Server.__init__ Server.search_chain Server.chain_of llm].
    unfold Server._check_configuration.
    destruct (truthy (Server.gemini_api_key config)); [discriminate|].
    intros _. apply in_or_app. right. left. reflexivity.
Qed.

(** What the tool calls use of [run]: it is back within 25, and raises
    nothing but the [NameError] for [sys]. *)
Lemma run_outcome_facts (self : AzureSearchChain) (query search_type : string)
  (top_k : Z) (output_format : string) (w : World) :
  (now (after (Chain.run self query search_type top_k output_format w)) - now w
   <= graph_execution_timeout)%Q
  /\ forall e,
       value (Chain.run self query search_type top_k output_format w) = inr e ->
       e = NameError "sys".
Proof.
  split.
  - unfold Chain.run, Chain.run_traced.
    rewrite !bind_same_clock by reflexivity.
    apply guarded_within_budget. intros e w'. destruct e; reflexivity.
  - intros e. unfold Chain.run, Chain.run_traced, bind, try_except, wait_for.
    destruct (Qle_bool _ graph_execution_timeout).
    + destruct (value (Chain.graph_ainvoke self _ w)) as [r|e0] eqn:E.
      * rewrite E. cbn [value after ret]. discriminate.
      * destruct e0; cbn [value after]; unfold Chain.sys_stderr, raise;
          cbn [value after]; congruence.
    + cbn [value after]. unfold Chain.sys_stderr, raise. cbn [value after].
      congruence.
Qed.

(** X19: a search tool of a server without warnings, called with a query,
    runs the chain on the query, with the [top_k] given or 5 and the
    format of the tool, and returns the text of the response; when the
    run raises, it returns that the tool call failed because the name
    [sys] is not defined.  As [run] is back within 25, the budget of 30
    of the tool call never cuts a search tool off. *)
Theorem search_tool_answers (self : Server.AzureSearchMCPServer) (name : string)
  (arguments : Server.Arguments) (w : World) (query : string) :
  let r := Chain.run (Server.search_chain self) query "text"
             (default 5 (Server.arg_top_k arguments)) (format_of name arguments)
             w in
  Server._init_warnings self = [] ->
  In name search_tool_names ->
  Server.arg_query arguments = Some query ->
  Server.handle_call_tool self name arguments w
  = mkOutcome (after r)
      (inl match value r with
           | inl response => Chain.response_context response
           | inr _ => "Error: Tool call failed: name 'sys' is not defined"
           end)
  /\ (now (after r) - now w <= graph_execution_timeout)%Q.
Proof.
  intros r Hw Hn Hq.
  destruct (run_outcome_facts (Server.search_chain self) query "text"
              (default 5 (Server.arg_top_k arguments)) (format_of name arguments) w)
    as (Ht & He).
  fold r in Ht, He. split; [|exact Ht].
  assert (Hexec : Server._execute_tool self name arguments w
                  = bind (Chain.run (Server.search_chain self) query "text"
                            (default 5 (Server.arg_top_k arguments))
                            (format_of name arguments))
                      (fun search_result =>
                         ret (Chain.response_context search_result)) w).
  { rewrite (search_tool_branch self name arguments w Hn).
    unfold Server.search_tool. rewrite Hw, Hq. reflexivity. }
  rewrite (handle_call_in_time self name arguments w _ Hexec).
  - unfold bind. fold r. clearbody r.
    destruct r as [w' [response|e]]; cbn [value after ret]; [reflexivity|].
    rewrite (He e eq_refl). reflexivity.
  - rewrite bind_same_clock by reflexivity. fold r.
    apply (Qle_trans _ graph_execution_timeout); [exact Ht|discriminate].
  - unfold bind. fold r. clearbody r.
    destruct r as [w' [response|e]]; cbn [value after ret]; [discriminate|].
    rewrite (He e eq_refl). discriminate.
Qed.

(** X20: a tool called without its required argument does not raise: the
    [KeyError] is turned into the text that the tool call failed,
    naming the key, and neither the chain nor the retriever is reached. *)
Theorem missing_argument_reported (self : Server.AzureSearchMCPServer)
  (name : string) (arguments : Server.Arguments) (w : World) :
  (Server._init_warnings self = [] ->
   In name search_tool_names ->
   Server.arg_query arguments = None ->
   Server.handle_call_tool self name arguments w
   = mkOutcome w (inl "Error: Tool call failed: 'query'"))
  /\ (Server.arg_document_ids arguments = None ->
      Server.handle_call_tool self "get_document_context" arguments w
      = mkOutcome w (inl "Error: Tool call failed: 'document_ids'")).
Proof.
  split.
  - intros Hw Hn Hq.
    assert (Hexec : Server._execute_tool self name arguments w
                    = raise (KeyError "query") w).
    { rewrite (search_tool_branch self name arguments w Hn).
      unfold Server.search_tool. rewrite Hw, Hq. reflexivity. }
    rewrite (handle_call_in_time self name arguments w _ Hexec);
      [reflexivity| |discriminate].
    cbn [raise after]. apply (Qle_trans _ 0); [apply Qle_lteq; right; ring|].
    discriminate.
  - intros Hd.
    assert (Hexec : Server._execute_tool self "get_document_context" arguments w
                    = raise (KeyError "document_ids") w).
    { unfold Server._execute_tool. rewrite try_except_reraise.
      cbn [String.eqb Ascii.eqb Bool.eqb]. rewrite Hd. reflexivity. }
    rewrite (handle_call_in_time self _ arguments w _ Hexec);
      [reflexivity| |discriminate].
    cbn [raise after]. apply (Qle_trans _ 0); [apply Qle_lteq; right; ring|].
    discriminate.
Qed.

(** X21: [handle_call_tool] never raises: whatever the tool name, the
    arguments and the outcome of the chain, it returns a text. *)
Theorem handle_call_tool_returns (self : Server.AzureSearchMCPServer)
  (name : string) (arguments : Server.Arguments) (w : World) :
  exists text, value (Server.handle_call_tool self name arguments w) = inl text.
Proof.
  unfold Server.handle_call_tool, bind, time_time, try_except.
  cbn [value after].
  destruct (value (wait_for (Server._execute_tool self name arguments)
                     Server.tool_call_timeout w)) as [text|e] eqn:E.
  - exists text. exact E.
  - destruct e; eexists; reflexivity.
Qed.

Lemma lookup_tool_returns (self : AzureSearchChain) (document_ids : string)
  (w : World) :
  exists text,
    value (Chain.get_document_context_tool self document_ids w) = inl text.
Proof.
  unfold Chain.get_document_context_tool, try_except.
  match goal with
  | |- context [value (?m w)] => destruct (value (m w)) as [text|e] eqn:E
  end.
  - exists text. rewrite E. reflexivity.
  - eexists. reflexivity.
Qed.

(** X22: the tool get_document_context does not look at the warnings of
    the server: called with an id list, and back within the budget of
    30, it returns what [get_document_context_tool] returns, in the world
    that call leaves, also on a server whose search tools are disabled. *)
Theorem lookup_tool_ungated (self : Server.AzureSearchMCPServer)
  (arguments : Server.Arguments) (w : World) (document_ids : string) :
  let r := Chain.get_document_context_tool (Server.search_chain self)
             document_ids w in
  Server.arg_document_ids arguments = Some document_ids ->
  (now (after r) - now w <= Server.tool_call_timeout)%Q ->
  exists text,
    value r = inl text
    /\ Server.handle_call_tool self "get_document_context" arguments w
       = mkOutcome (after r) (inl text).
Proof.
  intros r Hd Ht.
  destruct (lookup_tool_returns (Server.search_chain self) document_ids w)
    as (text & Hv).
  fold r in Hv. exists text. split; [exact Hv|].
  assert (Hexec : Server._execute_tool self "get_document_context" arguments w
                  = Chain.get_document_context_tool (Server.search_chain self)
                      document_ids w).
  { unfold Server._execute_tool. rewrite try_except_reraise.
    cbn [String.eqb Ascii.eqb Bool.eqb]. rewrite Hd. reflexivity. }
  rewrite (handle_call_in_time self _ arguments w _ Hexec).
  - fold r. rewrite Hv. reflexivity.
  - exact Ht.
  - fold r. rewrite Hv. discriminate.
Qed.

End ToolCalls.

Lemma search_stage_records_documents_witness :
  exists state',
    Chain._search_documents (env := Sample.env) Sample.chain Sample.state
      Sample.world
    = mkOutcome
        (after (search_documents (search_client Sample.chain)
                  (Chain.query Sample.state) (Chain.top_k Sample.state)
                  Sample.world))
        (inl state')
    /\ Chain.documents state'
       = [ {[ "title" := VStr "A" ]} ∪ {[ "content" := VStr "x" ]};
           ∅ ∪ {[ "content" := VStr "y" ]} ]
    /\ Chain.error state' = None
    /\ Chain.next_node Node.search_documents state' = inr Node.prepare_context.
Proof.
  destruct (search_stage_records_documents (env := Sample.env) Sample.chain
              Sample.state Sample.world [Sample.doc1; Sample.doc2]
              ltac:(vm_compute; discriminate) ltac:(vm_compute; reflexivity)
              eq_refl)
    as (state' & Hrun & Hdocs & Herr & _ & _ & _ & Hnext).
  exists state'. split; [exact Hrun|]. split; [exact Hdocs|].
  split; [exact Herr|exact Hnext].
Defined.

Lemma search_failure_aborts_run_witness :
  value (search_documents (search_client Sample.chain) "id:bad" 1 Sample.world)
  = inr (Exception "Error searching documents: boom")
  /\ value (Chain.run (env := Sample.env) Sample.chain "id:bad" "text" 1
              "structured" Sample.world)
     = inr (NameError "sys").
Proof.
  assert (H : value (search_documents (search_client Sample.chain) "id:bad" 1
                       Sample.world)
              = inr (Exception "Error searching documents: boom"))
    by (vm_compute; reflexivity).
  split; [exact H|].
  exact (proj2 (search_failure_aborts_run (env := Sample.env) Sample.chain "id:bad"
                  "text" 1 "structured" Sample.world _ eq_refl eq_refl
                  ltac:(vm_compute; discriminate) H ltac:(discriminate))).
Defined.

Lemma unconfigured_run_raises_witness :
  configured (Client.mkClient "" "" "" None (Some "incomplete")) = false
  /\ value (Chain.run (env := Sample.env) Sample.chain "q" "text" 5 "structured"
              (mkWorld (Client.mkClient "" "" "" None (Some "incomplete")) [] 0))
     = inr (NameError "sys").
Proof.
  split; [reflexivity|].
  exact (proj1 (unconfigured_run_raises (env := Sample.env) None "q" "text" 5
                  "structured"
                  (mkWorld (Client.mkClient "" "" "" None (Some "incomplete")) [] 0)
                  eq_refl eq_refl eq_refl)).
Defined.

Lemma structured_run_without_model_witness :
  exists response trace,
    value (Chain.run_traced (env := Sample.env) Sample.chain "q" "text" 5
             "structured" Sample.world)
    = inl (response, trace)
    /\ Chain.response_success response = true
    /\ Chain.response_metadata response !! "total_results" = Some (VInt 2).
Proof.
  destruct (structured_run_without_model (env := Sample.env) Sample.chain "q"
              "text" 5 Sample.world [Sample.doc1; Sample.doc2] eq_refl eq_refl
              eq_refl ltac:(vm_compute; discriminate)
              ltac:(vm_compute; reflexivity))
    as (response & trace & Hrun & _ & Hs & _ & _ & Hm).
  exists response, trace. rewrite Hrun. auto.
Defined.

Lemma model_format_without_model_witness :
  exists response trace,
    value (Chain.run_traced (env := Sample.env) Sample.chain "q" "text" 5
             "summary" Sample.world)
    = inl (response, trace)
    /\ Chain.response_success response = false
    /\ Chain.response_context response = "".
Proof.
  destruct (model_format_without_model (env := Sample.env) Sample.chain "q"
              "text" 5 "summary" Sample.world [Sample.doc1; Sample.doc2] eq_refl
              (or_introl eq_refl) eq_refl eq_refl ltac:(vm_compute; discriminate)
              ltac:(vm_compute; reflexivity))
    as (response & trace & final & Hrun & _ & _ & _ & Hs & Hc & _).
  exists response, trace. rewrite Hrun. auto.
Defined.

Lemma lookup_leaves_top_k_one_witness :
  configured (client Sample.world) = true
  /\ ids_of "d1" <> []
  /\ (Client.top_k <$> Client.retriever (client Sample.world)) = Some 5
  /\ (Client.top_k <$> Client.retriever
        (client (after (Chain.get_document_context_tool Sample.chain "d1"
                          Sample.world))))
     = Some 1.
Proof.
  split; [reflexivity|]. split; [discriminate|]. split; [reflexivity|].
  exact (proj2 (lookup_leaves_top_k_one (env := Sample.env) None "d1" Sample.world
                  eq_refl ltac:(discriminate))).
Defined.

Lemma client_init_outcome_witness :
  ClientInit.missing_vars "" "key" "" <> []
  /\ Client._init_error (ClientInit.__init__ (fun _ => None) "" "key" "")
     = Some ("Azure Search configuration is incomplete. "
             +:+ "Missing environment variables: "
             +:+ "AZURE_SEARCH_ENDPOINT, AZURE_SEARCH_INDEX_NAME")
  /\ Client.top_k <$> Client.retriever
       (ClientInit.__init__ (fun _ => None) "https://svc.search.windows.net"
          "key" "idx")
     = Some 5.
Proof.
  assert (H : ClientInit.missing_vars "" "key" "" <> []) by discriminate.
  split; [exact H|]. split.
  - exact (proj2 (proj2 (proj2 (proj2 (client_init_outcome (fun _ => None) ""
                                         "key" ""))) H)).
  - destruct (Client.retriever
                (ClientInit.__init__ (fun _ => None)
                   "https://svc.search.windows.net" "key" "idx")) as [r|] eqn:E;
      [|discriminate E].
    cbn [fmap option_fmap option_map]. f_equal.
    exact (proj1 (proj1 (proj2 (proj2 (client_init_outcome (fun _ => None)
                                         "https://svc.search.windows.net" "key"
                                         "idx"))) r E)).
Defined.

Lemma search_tools_disabled_witness :
  complete Sample.config_without_key = false
  /\ In "search_documents" search_tool_names
  /\ value (Server.handle_call_tool (env := Sample.env)
              (Server.__init__ Sample.config_without_key Sample.slow_client
                 Sample.model)
              "search_documents" Sample.arguments Sample.world)
     = inl (Server.disabled_text
              ["Gemini API key not found. LLM-based formatting will be disabled."]).
Proof.
  assert (Hn : In "search_documents" search_tool_names) by (left; reflexivity).
  split; [reflexivity|]. split; [exact Hn|].
  rewrite (proj1 (search_tools_disabled (env := Sample.env)
                    Sample.config_without_key Sample.slow_client Sample.model
                    "search_documents" Sample.arguments Sample.world eq_refl Hn)).
  reflexivity.
Defined.

Lemma search_tool_answers_witness :
  Server._init_warnings Sample.server = []
  /\ In "search_and_summarize" search_tool_names
  /\ Server.arg_query Sample.arguments = Some "q"
  /\ exists text,
       value (Server.handle_call_tool (env := Sample.env) Sample.server
                "search_and_summarize" Sample.arguments Sample.world)
       = inl text.
Proof.
  assert (Hn : In "search_and_summarize" search_tool_names)
    by (right; left; reflexivity).
  split; [reflexivity|]. split; [exact Hn|]. split; [reflexivity|].
  eexists.
  rewrite (proj1 (search_tool_answers (env := Sample.env) Sample.server
                    "search_and_summarize" Sample.arguments Sample.world "q"
                    eq_refl Hn eq_refl)).
  cbn [value]. reflexivity.
Defined.

Lemma missing_argument_reported_witness :
  Server.arg_document_ids (Server.mkArguments None None None None) = None
  /\ Server.handle_call_tool (env := Sample.env) Sample.server
       "get_document_context" (Server.mkArguments None None None None)
       Sample.world
     = mkOutcome Sample.world (inl "Error: Tool call failed: 'document_ids'").
Proof.
  split; [reflexivity|].
  exact (proj2 (missing_argument_reported (env := Sample.env) Sample.server
                  "search_documents" (Server.mkArguments None None None None)
                  Sample.world) eq_refl).
Defined.

Lemma lookup_tool_ungated_witness :
  Server.arg_document_ids Sample.arguments = Some "d1, bad ,,zz"
  /\ exists text,
       value (Server.handle_call_tool (env := Sample.env)
                (Server.mkServer ["warning"] Sample.chain)
                "get_document_context" Sample.arguments Sample.world)
       = inl text.
Proof.
  split; [reflexivity|].
  destruct (lookup_tool_ungated (env := Sample.env)
              (Server.mkServer ["warning"] Sample.chain) Sample.arguments
              Sample.world "d1, bad ,,zz" eq_refl
              ltac:(vm_compute; discriminate))
    as (text & _ & H).
  exists text. rewrite H. reflexivity.
Defined.

Lemma run_raises_name_error_only_witness :
  value (Chain.run (env := Sample.env) Sample.slow_chain "x" "text" 5 "structured"
           Sample.world)
  = inr (NameError "sys").
Proof.
  destruct (value (Chain.run (env := Sample.env) Sample.slow_chain "x" "text" 5
                     "structured" Sample.world)) as [response|e] eqn:E.
  - vm_compute in E. discriminate E.
  - f_equal.
    exact (run_raises_name_error_only (env := Sample.env) Sample.slow_chain "x"
             "text" 5 "structured" Sample.world e E).
Defined.
